(** * Team directory service (service.py): data layer and business rules

    A shallow embedding of [TeamManagementService] and of the part of
    sqlite3 it relies on.  The three tables are lists of rows in rowid
    order; a connection carries the database file ([disk]) and the
    connection's own uncommitted view ([view]); [commit] copies the view to
    the file, and leaving the [with get_connection()] block closes the
    connection, which drops whatever was not committed.

    SQL fixes the order of the rows of a SELECT only under [ORDER BY];
    the statements here return them in table order, and the properties
    below speak of the rows returned, not of their order, except for the
    ordered query.  The declared FOREIGN KEYs are not enforced by sqlite3
    unless the pragma is set, which the code does not do: only the
    PRIMARY KEYs constrain the inserts.

    Besides the service, the development embeds its two adapters: the
    routes of rest.py, and of telegram_bot.py the identity cache (the dict
    and the table [user_ids]) and the command handlers.  A handler runs in
    a [World] (cache, tables, Bot API calls made so far); what the Bot API
    returns, and whether a call raises, is given by a schedule, as for the
    storage.  Logging is not modelled, nor the timestamp column of
    [user_ids].

    Strings are UTF-8 byte strings, so that [=] on TEXT columns (BINARY
    collation) is byte equality and [ORDER BY] is the byte-wise
    lexicographic order.  Python's [str.lower] is not part of the
    repository: it is a parameter [lower] of the development, instantiated
    with the ASCII lower-casing (with which it agrees on ASCII strings) for
    the concrete runs. *)

From Stdlib Require Import List String Ascii ZArith Bool Arith Lia.
From Stdlib Require Import Permutation Sorted.
Import ListNotations.

Local Open Scope string_scope.
Local Open Scope list_scope.

(** ** Strings *)

(** [s.replace("@", "")]: every occurrence of the character is removed
    (in UTF-8 the byte of "@" occurs in no other character). *)
Fixpoint replace_at (s : string) : string :=
  match s with
  | EmptyString => EmptyString
  | String c s' =>
      if Ascii.eqb c "@"%char then replace_at s' else String c (replace_at s')
  end.

(** ASCII instance of [str.lower]: [A-Z] to [a-z], every other byte kept. *)
Definition lower_char (c : ascii) : ascii :=
  let n := nat_of_ascii c in
  if (65 <=? n)%nat && (n <=? 90)%nat then ascii_of_nat (n + 32) else c.

Fixpoint lower_ascii (s : string) : string :=
  match s with
  | EmptyString => EmptyString
  | String c s' => String (lower_char c) (lower_ascii s')
  end.

(** ** Tables *)

(** [teams(team_name)], [team_members(username, team_name)],
    [chat_teams(chat_id, team_name)]. *)
Record DB : Type := mkDB {
  teams : list string;
  team_members : list (string * string);
  chat_teams : list (Z * string)
}.

Definition empty_db : DB := mkDB [] [] [].

Definition member_eqb (r1 r2 : string * string) : bool :=
  String.eqb (fst r1) (fst r2) && String.eqb (snd r1) (snd r2).

Definition link_eqb (r1 r2 : Z * string) : bool :=
  Z.eqb (fst r1) (fst r2) && String.eqb (snd r1) (snd r2).

(** A Python int binds to an SQLite INTEGER only when it fits 64 bits. *)
Definition fits_int64 (n : Z) : bool :=
  (Z.leb (- 2 ^ 63) n && Z.ltb n (2 ^ 63))%Z.

(** ** Responses *)

(** The f-string templates of the responses, with their arguments. *)
Inductive Message : Type :=
| TeamCreated (team_name : string)
| TeamAlreadyExists (team_name : string)
| InternalServerError
| TeamDoesntExist (team_name : string)
| AddedUser (username team_name : string)
| UserAlreadyInTeam (username team_name : string)
| UserNotInTeam (username team_name : string)
| RemovedUser (username team_name : string)
| AddedTeamToChat (team_name : string)
| TeamAlreadyInChat (team_name : string)
| UserNotInAnyTeams (username : string)
| UserOffboarded (username : string).

(** The response dictionary: the two keys always present and the three
    that a success may carry. *)
Record ServiceResponse : Type := mkResponse {
  success : bool;
  message : Message;
  chats_to_add : option (list Z);
  chats_to_remove : option (list Z);
  members_to_add : option (list string)
}.

Definition ok (m : Message) : ServiceResponse :=
  mkResponse true m None None None.

Definition failure (m : Message) : ServiceResponse :=
  mkResponse false m None None None.

(** ** Connections *)

(** What a storage call can raise: [sqlite3.IntegrityError], or anything
    else ([OperationalError], [OverflowError], ...). *)
Inductive exn : Type :=
| IntegrityError
| OtherException.

(** [faults k] tells whether the [k]-th storage call made through the
    connection (0 is [sqlite3.connect]) raises. *)
Record Conn : Type := mkConn {
  faults : nat -> bool;
  calls : nat;
  disk : DB;
  view : DB
}.

Definition M (A : Type) : Type := Conn -> (A + exn) * Conn.

Definition ret {A : Type} (a : A) : M A := fun c => (inl a, c).

Definition raise {A : Type} (e : exn) : M A := fun c => (inr e, c).

Definition bind {A B : Type} (m : M A) (k : A -> M B) : M B :=
  fun c =>
    match m c with
    | (inl a, c') => k a c'
    | (inr e, c') => (inr e, c')
    end.

Notation "x <- m ;; k" := (bind m (fun x => k))
  (at level 61, m at next level, right associativity).
Notation "m ;; k" := (bind m (fun _ => k))
  (at level 61, right associativity).

Definition storage_call : M unit :=
  fun c =>
    let c' := mkConn (faults c) (S (calls c)) (disk c) (view c) in
    if faults c (calls c) then (inr OtherException, c') else (inl tt, c').

Definition get_view : M DB := fun c => (inl (view c), c).

Definition set_view (db : DB) : M unit :=
  fun c => (inl tt, mkConn (faults c) (calls c) (disk c) db).

(** [conn.commit()] *)
Definition commit : M unit :=
  storage_call ;;
  fun c => (inl tt, mkConn (faults c) (calls c) (view c) (view c)).

Definition no_fault : nat -> bool := fun _ => false.

(** [with self.db.get_connection() as conn: body]: the connection starts
    from the file, and only what was committed is left when it closes. *)
Definition with_connection {A : Type} (F : nat -> bool) (body : M A) (db : DB)
  : (A + exn) * DB :=
  let (r, c) := (storage_call ;; body) (mkConn F 0 db db) in
  (r, disk c).

(** ** Statements *)

(** [SELECT team_name FROM teams WHERE team_name = ?] and [fetchone()]:
    whether a row came back. *)
Definition select_team (team_name : string) : M bool :=
  storage_call ;;
  db <- get_view ;;
  ret (existsb (String.eqb team_name) (teams db)).

(** [INSERT INTO teams (team_name) VALUES (?)] *)
Definition insert_team (team_name : string) : M unit :=
  storage_call ;;
  db <- get_view ;;
  if existsb (String.eqb team_name) (teams db) then raise IntegrityError
  else set_view (mkDB (teams db ++ [team_name]) (team_members db) (chat_teams db)).

(** [INSERT INTO team_members (username, team_name) VALUES (?, ?)] *)
Definition insert_member (username team_name : string) : M unit :=
  storage_call ;;
  db <- get_view ;;
  if existsb (member_eqb (username, team_name)) (team_members db)
  then raise IntegrityError
  else set_view (mkDB (teams db) (team_members db ++ [(username, team_name)])
                      (chat_teams db)).

(** [INSERT INTO chat_teams (chat_id, team_name) VALUES (?, ?)] *)
Definition insert_chat_team (chat_id : Z) (team_name : string) : M unit :=
  storage_call ;;
  db <- get_view ;;
  if negb (fits_int64 chat_id) then raise OtherException
  else if existsb (link_eqb (chat_id, team_name)) (chat_teams db)
  then raise IntegrityError
  else set_view (mkDB (teams db) (team_members db)
                      (chat_teams db ++ [(chat_id, team_name)])).

(** [DELETE FROM team_members WHERE username = ? AND team_name = ?],
    giving [cursor.rowcount]. *)
Definition delete_member (username team_name : string) : M nat :=
  storage_call ;;
  db <- get_view ;;
  set_view (mkDB (teams db)
                 (filter (fun r => negb (member_eqb (username, team_name) r))
                         (team_members db))
                 (chat_teams db)) ;;
  ret (List.length (filter (member_eqb (username, team_name)) (team_members db))).

(** [DELETE FROM team_members WHERE username = ?], giving
    [cursor.rowcount]. *)
Definition delete_user (username : string) : M nat :=
  storage_call ;;
  db <- get_view ;;
  set_view (mkDB (teams db)
                 (filter (fun r => negb (String.eqb username (fst r)))
                         (team_members db))
                 (chat_teams db)) ;;
  ret (List.length (filter (fun r => String.eqb username (fst r))
                           (team_members db))).

(** [SELECT chat_id FROM chat_teams WHERE team_name = ?] *)
Definition chats_of_team (team_name : string) (db : DB) : list Z :=
  map fst (filter (fun r => String.eqb team_name (snd r)) (chat_teams db)).

Definition select_chats (team_name : string) : M (list Z) :=
  storage_call ;;
  db <- get_view ;;
  ret (chats_of_team team_name db).

(** [SELECT username FROM team_members WHERE team_name = ?] *)
Definition members_of_team (team_name : string) (db : DB) : list string :=
  map fst (filter (fun r => String.eqb team_name (snd r)) (team_members db)).

Definition select_members (team_name : string) : M (list string) :=
  storage_call ;;
  db <- get_view ;;
  ret (members_of_team team_name db).

(** [SELECT team_name FROM team_members WHERE username = ?] *)
Definition teams_of_user (username : string) (db : DB) : list string :=
  map snd (filter (fun r => String.eqb username (fst r)) (team_members db)).

Definition select_user_teams (username : string) : M (list string) :=
  storage_call ;;
  db <- get_view ;;
  ret (teams_of_user username db).

(** [SELECT DISTINCT chat_id FROM chat_teams WHERE team_name IN
    (SELECT team_name FROM team_members WHERE username = ?)] *)
Definition chats_of_user (username : string) (db : DB) : list Z :=
  nodup Z.eq_dec
    (map fst
       (filter (fun r => existsb (String.eqb (snd r)) (teams_of_user username db))
               (chat_teams db))).

Definition select_user_chats (username : string) : M (list Z) :=
  storage_call ;;
  db <- get_view ;;
  ret (chats_of_user username db).

(** [ORDER BY] on a TEXT column: ascending byte-wise order. *)
Fixpoint insert_sorted (x : string) (l : list string) : list string :=
  match l with
  | [] => [x]
  | y :: l' => if String.leb x y then x :: l else y :: insert_sorted x l'
  end.

Fixpoint order_by (l : list string) : list string :=
  match l with
  | [] => []
  | x :: l' => insert_sorted x (order_by l')
  end.

(** The order of [ORDER BY]: [String.leb] is the lexicographic order on
    the bytes. *)
Definition str_le (a b : string) : Prop := String.leb a b = true.

(** [SELECT username FROM team_members WHERE team_name = ? ORDER BY username] *)
Definition select_members_ordered (team_name : string) : M (list string) :=
  storage_call ;;
  db <- get_view ;;
  ret (order_by (members_of_team team_name db)).

(** [SELECT team_name FROM chat_teams WHERE chat_id = ?] *)
Definition select_chat_teams (chat_id : Z) : M (list string) :=
  storage_call ;;
  db <- get_view ;;
  if negb (fits_int64 chat_id) then raise OtherException
  else ret (map snd (filter (fun r => Z.eqb chat_id (fst r)) (chat_teams db))).

(** [SELECT team_name FROM teams ORDER BY team_name] *)
Definition select_teams_ordered : M (list string) :=
  storage_call ;;
  db <- get_view ;;
  ret (order_by (teams db)).

(** [try: ... except sqlite3.IntegrityError: ... except Exception: ...] *)
Definition try_except (r : (ServiceResponse + exn) * DB)
    (on_integrity : ServiceResponse) : ServiceResponse * DB :=
  match r with
  | (inl resp, db) => (resp, db)
  | (inr IntegrityError, db) => (on_integrity, db)
  | (inr OtherException, db) => (failure InternalServerError, db)
  end.

(** The operations of the service, as the adapters call them. *)
Inductive Op : Type :=
| CreateTeam (team_name : string)
| AddMember (username team_name : string)
| RemoveMember (username team_name : string)
| AddTeamToChat (chat_id : Z) (team_name : string)
| OffboardUser (username : string).

(** ** The identity cache of the chat adapter (telegram_bot.py) *)

(** [self.user_id_cache], a dict in insertion order, and the table
    [user_ids(username, user_id, updated_at)] with PRIMARY KEY
    [(username, user_id)]; the timestamp column is left out. *)
Record BotState : Type := mkBot {
  user_id_cache : list (string * Z);
  user_ids : list (string * Z)
}.

Definition empty_bot : BotState := mkBot [] [].

(** [d[k]] when [k in d]. *)
Fixpoint dict_get (k : string) (d : list (string * Z)) : option Z :=
  match d with
  | [] => None
  | (k', v) :: d' => if String.eqb k k' then Some v else dict_get k d'
  end.

(** [d[k] = v] *)
Fixpoint dict_set (k : string) (v : Z) (d : list (string * Z))
  : list (string * Z) :=
  match d with
  | [] => [(k, v)]
  | (k', v') :: d' =>
      if String.eqb k k' then (k, v) :: d' else (k', v') :: dict_set k v d'
  end.

Definition id_row_eqb (r1 r2 : string * Z) : bool :=
  String.eqb (fst r1) (fst r2) && Z.eqb (snd r1) (snd r2).

(** [INSERT OR REPLACE INTO user_ids (username, user_id) VALUES (?, ?)]:
    a row with the same primary key is deleted before the insert. *)
Definition insert_or_replace (row : string * Z) (tbl : list (string * Z))
  : list (string * Z) :=
  filter (fun r => negb (id_row_eqb row r)) tbl ++ [row].

(** [SELECT user_id FROM user_ids WHERE username = ?] and [fetchone()]:
    the statement runs over the index of the primary key
    [(username, user_id)], so the row fetched is the one with the smallest
    identifier. *)
Definition select_user_id (username : string) (tbl : list (string * Z))
  : option Z :=
  match map snd (filter (fun r => String.eqb username (fst r)) tbl) with
  | [] => None
  | i :: l => Some (fold_left Z.min l i)
  end.

(** [s.lstrip('@')] *)
Fixpoint lstrip_at (s : string) : string :=
  match s with
  | EmptyString => EmptyString
  | String c s' => if Ascii.eqb c "@"%char then lstrip_at s' else s
  end.

(** [cache_user_id]: the dict is written first, then the table, in a
    [with sqlite3.connect(...)] block that has no handler; [raises] tells
    whether a storage call of that block raises. *)
Definition cache_user_id (raises : bool) (username : string) (user_id : Z)
    (st : BotState) : (unit + exn) * BotState :=
  if String.eqb username "" then (inl tt, st)
  else
    let cache := dict_set username user_id (user_id_cache st) in
    if raises || negb (fits_int64 user_id)
    then (inr OtherException, mkBot cache (user_ids st))
    else (inl tt,
          mkBot cache (insert_or_replace (username, user_id) (user_ids st))).

(** [get_cached_user_id]: the dict, else the table, whose answer is put in
    the dict. *)
Definition get_cached_user_id (raises : bool) (username : string)
    (st : BotState) : (option Z + exn) * BotState :=
  match dict_get username (user_id_cache st) with
  | Some user_id => (inl (Some user_id), st)
  | None =>
      if raises then (inr OtherException, st)
      else
        match select_user_id username (user_ids st) with
        | Some user_id =>
            (inl (Some user_id),
             mkBot (dict_set username user_id (user_id_cache st)) (user_ids st))
        | None => (inl None, st)
        end
  end.

(** Every entry of the dict has its row in the table. *)
Definition cache_backed (st : BotState) : Prop :=
  forall username user_id,
    dict_get username (user_id_cache st) = Some user_id ->
    In (username, user_id) (user_ids st).

(** What lookups do to the cache: the table is the same, and an entry of
    the dict is either as before or, absent before, what the table answers. *)
Definition cache_extends (st st' : BotState) : Prop :=
  user_ids st' = user_ids st /\
  forall k,
    dict_get k (user_id_cache st') = dict_get k (user_id_cache st) \/
    (dict_get k (user_id_cache st) = None /\
     dict_get k (user_id_cache st') = select_user_id k (user_ids st)).

(** ** The Telegram side of the chat adapter *)

(** The part of [telegram.User] and [telegram.Update] the handlers read;
    [effective_message] tells whether the update has a message. *)
Record User : Type := mkUser {
  tg_username : option string;
  tg_id : Z
}.

Record Update : Type := mkUpdate {
  effective_user : option User;
  effective_message : bool;
  effective_chat : option Z
}.

(** The texts the handlers send, by template. *)
Inductive Reply : Type :=
| Welcome
| Text (s : string)
| ServiceMessage (m : Message)
| UnknownUserYet (username bot_username : string)
| UnknownUser (username : string)
| ShareLink (username chat_link : string)
| FailedChats (m : Message) (failed_chats : list Z)
| AddedToChatReport (m : Message) (failed_members : list string)
    (chat_link : string)
| TeamList (team_names : list string)
| NoMembers (team_name : string)
| MemberList (team_name : string) (members : list string).

Inductive Notice : Type :=
| AddedToTeamNotice (team_name chat_link : string)
| TeamAddedToChatNotice (team_name chat_link : string).

(** The calls of the Bot API the handlers make. *)
Inductive Action : Type :=
| ReplyText (r : Reply)
| SendMessage (user_id : Z) (n : Notice)
| GetChat (chat_id : Z)
| CreateInviteLink (chat_id : Z)
| BanChatMember (chat_id user_id : Z)
| UnbanChatMember (chat_id user_id : Z).

Inductive bot_exn : Type :=
| AttributeError
| TelegramError
| StorageError.

(** The state a handler runs in: the identity cache, the tables of the
    service, the number of Bot API calls made and the calls that went
    through. *)
Record World : Type := mkWorld {
  bot_state : BotState;
  store : DB;
  api_calls : nat;
  sent : list Action
}.

Definition Bot (A : Type) : Type := World -> (A + bot_exn) * World.

Definition bot_ret {A : Type} (a : A) : Bot A := fun w => (inl a, w).

Definition bot_raise {A : Type} (e : bot_exn) : Bot A := fun w => (inr e, w).

Definition bot_bind {A B : Type} (m : Bot A) (k : A -> Bot B) : Bot B :=
  fun w =>
    match m w with
    | (inl a, w') => k a w'
    | (inr e, w') => (inr e, w')
    end.

Notation "x <~ m ;; k" := (bot_bind m (fun x => k))
  (at level 61, m at next level, right associativity).
Notation "m ;;; k" := (bot_bind m (fun _ => k))
  (at level 61, right associativity).

(** One call of the Bot API: [T k] is what the [k]-th call returns
    ([None] when it raises); a call that went through is recorded. *)
Definition api (T : nat -> option string) (a : Action) : Bot string :=
  fun w =>
    match T (api_calls w) with
    | None =>
        (inr TelegramError,
         mkWorld (bot_state w) (store w) (S (api_calls w)) (sent w))
    | Some data =>
        (inl data,
         mkWorld (bot_state w) (store w) (S (api_calls w)) (sent w ++ [a]))
    end.

(** [await update.effective_message.reply_text(...)] *)
Definition reply_text (T : nat -> option string) (update : Update) (r : Reply)
  : Bot unit :=
  if effective_message update then api T (ReplyText r) ;;; bot_ret tt
  else bot_raise AttributeError.

(** [try: body except Exception as e: self.logger.error(...)], telling
    whether the body went through. *)
Definition try_log (body : Bot unit) : Bot bool :=
  fun w =>
    match body w with
    | (inl _, w') => (inl true, w')
    | (inr _, w') => (inl false, w')
    end.

(** [await context.bot.ban_chat_member(...)] then
    [await context.bot.unban_chat_member(...)] *)
Definition kick (T : nat -> option string) (chat_id user_id : Z) : Bot unit :=
  api T (BanChatMember chat_id user_id) ;;;
  api T (UnbanChatMember chat_id user_id) ;;;
  bot_ret tt.

(** [for chat_id in chats: try: kick except Exception: ...], returning the
    chats for which the body raised. *)
Fixpoint kick_from_chats (T : nat -> option string) (user_id : Z)
    (chats : list Z) : Bot (list Z) :=
  match chats with
  | [] => bot_ret []
  | chat_id :: rest =>
      done <~ try_log (kick T chat_id user_id) ;;
      failed <~ kick_from_chats T user_id rest ;;
      bot_ret (if done then failed else chat_id :: failed)
  end.

Definition no_api_fault : nat -> option string := fun _ => Some "".

(** A computation that only talks to the Bot API leaves the identity
    cache and the tables of the service as they are. *)
Definition api_only {A : Type} (m : Bot A) : Prop :=
  forall w, bot_state (snd (m w)) = bot_state w /\ store (snd (m w)) = store w.

(** The calls a chat is removed with. *)
Definition kicked (sent_calls : list Action) (chat_id user_id : Z) : Prop :=
  In (BanChatMember chat_id user_id) sent_calls /\
  In (UnbanChatMember chat_id user_id) sent_calls.

(** ** Sample stores and fault schedules *)

Definition db_eng : DB := mkDB ["eng"] [] [].

Definition db_alice : DB := mkDB ["eng"] [("Alice", "eng")] [].

Definition db_bob : DB := mkDB ["eng"] [("bob", "eng")] [(100%Z, "eng")].

Definition db_bob_ghost : DB := mkDB ["eng"; "ghost"] [("bob", "eng")] [].

Definition db_two_members : DB :=
  mkDB ["eng"] [("bob", "eng"); ("alice", "eng")] [].

(** carol is in teams a and b, linked to the chats 1, 2 and 2, 3. *)
Definition db_carol : DB :=
  mkDB ["a"; "b"]
       [("carol", "a"); ("dave", "a"); ("carol", "b")]
       [(1%Z, "a"); (2%Z, "a"); (2%Z, "b"); (3%Z, "b")].

(** alice is known to the identity cache under the identifier 42. *)
Definition bot_alice : BotState := mkBot [("alice", 42%Z)] [("alice", 42%Z)].

Definition update_alice : Update :=
  mkUpdate (Some (mkUser (Some "Alice") 42%Z)) true (Some 100%Z).

Definition update_no_message : Update :=
  mkUpdate (Some (mkUser (Some "Alice") 42%Z)) false (Some 100%Z).

Definition world_alice : World := mkWorld bot_alice db_bob 0 [].

(** Only the first call of the Bot API raises. *)
Definition api_fails_first : nat -> option string :=
  fun k => if Nat.eqb k 0 then None else Some "".

(** Only the [n]-th storage call of the operation raises. *)
Definition fault_at (n : nat) : nat -> bool := fun k => Nat.eqb k n.

(** ** The service *)

Section Service.

Variable lower : string -> string.

Definition create_team (F : nat -> bool) (team_name : string) (db : DB)
  : ServiceResponse * DB :=
  let team_name := lower team_name in
  try_except
    (with_connection F
       (insert_team team_name ;;
        commit ;;
        ret (ok (TeamCreated team_name)))
       db)
    (failure (TeamAlreadyExists team_name)).

Definition add_member_to_team (F : nat -> bool) (username team_name : string)
    (db : DB) : ServiceResponse * DB :=
  let username := replace_at username in
  let team_name := lower team_name in
  try_except
    (with_connection F
       (found <- select_team team_name ;;
        if negb found then ret (failure (TeamDoesntExist team_name))
        else
          insert_member username team_name ;;
          commit ;;
          chats <- select_chats team_name ;;
          ret (mkResponse true (AddedUser username team_name)
                          (Some chats) None None))
       db)
    (failure (UserAlreadyInTeam username team_name)).

(** No [except sqlite3.IntegrityError] here: every exception is an internal
    error. *)
Definition remove_member_from_team (F : nat -> bool)
    (username team_name : string) (db : DB) : ServiceResponse * DB :=
  let username := replace_at username in
  let team_name := lower team_name in
  try_except
    (with_connection F
       (rowcount <- delete_member username team_name ;;
        if Nat.eqb rowcount 0
        then ret (failure (UserNotInTeam username team_name))
        else
          commit ;;
          chats <- select_chats team_name ;;
          ret (mkResponse true (RemovedUser username team_name)
                          None (Some chats) None))
       db)
    (failure InternalServerError).

Definition add_team_to_chat (F : nat -> bool) (chat_id : Z)
    (team_name : string) (db : DB) : ServiceResponse * DB :=
  let team_name := lower team_name in
  try_except
    (with_connection F
       (found <- select_team team_name ;;
        if negb found then ret (failure (TeamDoesntExist team_name))
        else
          insert_chat_team chat_id team_name ;;
          commit ;;
          members <- select_members team_name ;;
          ret (mkResponse true (AddedTeamToChat team_name)
                          None None (Some members)))
       db)
    (failure (TeamAlreadyInChat team_name)).

Definition offboard_user (F : nat -> bool) (username : string) (db : DB)
  : ServiceResponse * DB :=
  let username := replace_at username in
  try_except
    (with_connection F
       (chats <- select_user_chats username ;;
        rowcount <- delete_user username ;;
        if Nat.eqb rowcount 0
        then ret (failure (UserNotInAnyTeams username))
        else
          commit ;;
          ret (mkResponse true (UserOffboarded username)
                          None (Some chats) None))
       db)
    (failure InternalServerError).

(** The queries have no [try]: an exception of the storage reaches the
    caller. *)
Definition get_user_teams (F : nat -> bool) (username : string) (db : DB)
  : list string + exn :=
  let username := replace_at username in
  fst (with_connection F (select_user_teams username) db).

Definition get_chat_teams (F : nat -> bool) (chat_id : Z) (db : DB)
  : list string + exn :=
  fst (with_connection F (select_chat_teams chat_id) db).

Definition get_teams (F : nat -> bool) (db : DB) : list string + exn :=
  fst (with_connection F select_teams_ordered db).

(** The class defines [get_team_members] twice; the later definition, with
    [ORDER BY username], is the one the class ends up with. *)
Definition get_team_members (F : nat -> bool) (team_name : string) (db : DB)
  : list string + exn :=
  let team_name := lower team_name in
  fst (with_connection F (select_members_ordered team_name) db).

Definition run_op (F : nat -> bool) (op : Op) (db : DB)
  : ServiceResponse * DB :=
  match op with
  | CreateTeam t => create_team F t db
  | AddMember u t => add_member_to_team F u t db
  | RemoveMember u t => remove_member_from_team F u t db
  | AddTeamToChat c t => add_team_to_chat F c t db
  | OffboardUser u => offboard_user F u db
  end.

(** ** The HTTP adapter (rest.py) *)

(** What an endpoint gives back: the response of the service as the body,
    or [HTTPException(status_code, detail)]. *)
Inductive HttpResult : Type :=
| Returns (body : ServiceResponse)
| HTTPException (status_code : nat) (detail : Message).

(** [if not result["success"]: raise HTTPException(status_code=400,
    detail=result["message"])], else [return result]. *)
Definition http_result (r : ServiceResponse * DB) : HttpResult * DB :=
  if negb (success (fst r)) then (HTTPException 400 (message (fst r)), snd r)
  else (Returns (fst r), snd r).

Definition rest_create_team (F : nat -> bool) (team_name : string) (db : DB)
  : HttpResult * DB :=
  http_result (create_team F team_name db).

Definition rest_add_team_member (F : nat -> bool) (username team_name : string)
    (db : DB) : HttpResult * DB :=
  http_result (add_member_to_team F username team_name db).

Definition rest_remove_team_member (F : nat -> bool)
    (username team_name : string) (db : DB) : HttpResult * DB :=
  http_result (remove_member_from_team F username team_name db).

Definition rest_add_team_to_chat (F : nat -> bool) (chat_id : Z)
    (team_name : string) (db : DB) : HttpResult * DB :=
  http_result (add_team_to_chat F chat_id team_name db).

Definition rest_offboard_user (F : nat -> bool) (username : string) (db : DB)
  : HttpResult * DB :=
  http_result (offboard_user F username db).

(** The five routes, by the operation they serve. *)
Definition rest_request (F : nat -> bool) (op : Op) (db : DB)
  : HttpResult * DB :=
  match op with
  | CreateTeam t => rest_create_team F t db
  | AddMember u t => rest_add_team_member F u t db
  | RemoveMember u t => rest_remove_team_member F u t db
  | AddTeamToChat c t => rest_add_team_to_chat F c t db
  | OffboardUser u => rest_offboard_user F u db
  end.

(** ** The handlers of the chat adapter (telegram_bot.py) *)

(** [get_user_id]: the name is stripped of leading "@" and lower-cased; an
    identifier that is [None] or 0 is no identifier. *)
Definition get_user_id (raises : bool) (username : string) (st : BotState)
  : (option Z + exn) * BotState :=
  let clean_username := lower (lstrip_at username) in
  match get_cached_user_id raises clean_username st with
  | (inl (Some cached_id), st') =>
      if Z.eqb cached_id 0 then (inl None, st') else (inl (Some cached_id), st')
  | (inl None, st') => (inl None, st')
  | (inr e, st') => (inr e, st')
  end.

Definition lookup_user_id (raises : bool) (username : string)
  : Bot (option Z) :=
  fun w =>
    match get_user_id raises username (bot_state w) with
    | (inl r, st) => (inl r, mkWorld st (store w) (api_calls w) (sent w))
    | (inr _, st) => (inr StorageError, mkWorld st (store w) (api_calls w) (sent w))
    end.

Definition remember_user_id (raises : bool) (username : string) (user_id : Z)
  : Bot unit :=
  fun w =>
    match cache_user_id raises username user_id (bot_state w) with
    | (inl r, st) => (inl r, mkWorld st (store w) (api_calls w) (sent w))
    | (inr _, st) => (inr StorageError, mkWorld st (store w) (api_calls w) (sent w))
    end.

(** A call of a mutating operation of the service: it always returns. *)
Definition call_service (F : nat -> bool) (op : Op) : Bot ServiceResponse :=
  fun w =>
    let (r, db) := run_op F op (store w) in
    (inl r, mkWorld (bot_state w) db (api_calls w) (sent w)).

(** A call of a query of the service: its exception is not handled. *)
Definition call_query (q : DB -> list string + exn) : Bot (list string) :=
  fun w =>
    match q (store w) with
    | inl l => (inl l, w)
    | inr _ => (inr StorageError, w)
    end.

Definition no_args (args : list string) : bool :=
  match args with
  | [] => true
  | _ :: _ => false
  end.

(** [if update.effective_user and update.effective_user.username:
    await self.cache_user_id(username.lower(), id)] *)
Definition cache_sender (raises : bool) (update : Update) : Bot unit :=
  match effective_user update with
  | Some user =>
      match tg_username user with
      | Some name =>
          if String.eqb name "" then bot_ret tt
          else remember_user_id raises (lower name) (tg_id user)
      | None => bot_ret tt
      end
  | None => bot_ret tt
  end.

Definition handle_message (raises : bool) (update : Update) : Bot unit :=
  cache_sender raises update.

Definition bot_start (T : nat -> option string) (raises : bool)
    (update : Update) : Bot unit :=
  match effective_user update with
  | None => bot_ret tt
  | Some _ =>
      if negb (effective_message update) then bot_ret tt
      else
        cache_sender raises update ;;;
        reply_text T update Welcome
  end.

Definition bot_create_team (T : nat -> option string) (F : nat -> bool)
    (update : Update) (args : list string) : Bot unit :=
  if no_args args || negb (effective_message update)
  then reply_text T update (Text "Usage: /create_team <team_name>")
  else
    let team_name := lower (hd "" args) in
    result <~ call_service F (CreateTeam team_name) ;;
    reply_text T update (ServiceMessage (message result)).

(** [chat = await context.bot.get_chat(chat_id)], then the public link of
    the chat when it has a username, else a new invite link. *)
Definition chat_link_of (T : nat -> option string) (chat_id : Z) : Bot string :=
  chat_username <~ api T (GetChat chat_id) ;;
  if negb (String.eqb chat_username "")
  then bot_ret (String.append "https://t.me/" chat_username)
  else api T (CreateInviteLink chat_id).

Fixpoint invite_to_chats (T : nat -> option string) (update : Update)
    (username team_name : string) (user_id : Z) (chats : list Z) : Bot unit :=
  match chats with
  | [] => bot_ret tt
  | chat_id :: rest =>
      try_log
        (chat_link <~ chat_link_of T chat_id ;;
         told <~ try_log
                   (api T (SendMessage user_id
                             (AddedToTeamNotice team_name chat_link)) ;;;
                    bot_ret tt) ;;
         if told then bot_ret tt
         else if effective_message update
              then reply_text T update (ShareLink username chat_link)
              else bot_ret tt) ;;;
      invite_to_chats T update username team_name user_id rest
  end.

Definition bot_add_to_team (T : nat -> option string) (F : nat -> bool)
    (raises : bool) (bot_username : string) (update : Update)
    (args : list string) : Bot unit :=
  if no_args args || negb (Nat.eqb (List.length args) 2)
     || negb (effective_message update)
  then reply_text T update (Text "Usage: /add_to_team @username team_name")
  else
    let username := nth 0 args "" in
    let team_name := nth 1 args "" in
    let clean_username := lower (lstrip_at username) in
    user_id <~ lookup_user_id raises username ;;
    match user_id with
    | None => reply_text T update (UnknownUserYet username bot_username)
    | Some user_id =>
        result <~ call_service F (AddMember clean_username team_name) ;;
        (if success result
         then invite_to_chats T update username team_name user_id
                (match chats_to_add result with Some l => l | None => [] end)
         else bot_ret tt) ;;;
        if effective_message update
        then reply_text T update (ServiceMessage (message result))
        else bot_ret tt
    end.

Definition bot_remove_from_team (T : nat -> option string) (F : nat -> bool)
    (raises : bool) (update : Update) (args : list string) : Bot unit :=
  if no_args args || negb (Nat.eqb (List.length args) 2)
     || negb (effective_message update)
  then reply_text T update (Text "Usage: /remove_from_team @username team_name")
  else
    let username := nth 0 args "" in
    let team_name := nth 1 args "" in
    let clean_username := lower (lstrip_at username) in
    user_id <~ lookup_user_id raises username ;;
    match user_id with
    | None => reply_text T update (UnknownUser username)
    | Some user_id =>
        result <~ call_service F (RemoveMember clean_username team_name) ;;
        (if success result
         then kick_from_chats T user_id
                (match chats_to_remove result with Some l => l | None => [] end)
              ;;; bot_ret tt
         else bot_ret tt) ;;;
        reply_text T update (ServiceMessage (message result))
    end.

(** The reply of the handler is inside [if result["success"]]: a failure of
    the service is not answered. *)
Definition bot_offboard_user (T : nat -> option string) (F : nat -> bool)
    (raises : bool) (update : Update) (args : list string) : Bot unit :=
  if no_args args || negb (effective_message update)
  then reply_text T update (Text "Usage: /offboard @username")
  else
    let username := hd "" args in
    let clean_username := lower (lstrip_at username) in
    user_id <~ lookup_user_id raises username ;;
    match user_id with
    | None => reply_text T update (UnknownUser username)
    | Some user_id =>
        result <~ call_service F (OffboardUser clean_username) ;;
        if success result
        then
          failed_chats <~ kick_from_chats T user_id
            (match chats_to_remove result with Some l => l | None => [] end) ;;
          reply_text T update (FailedChats (message result) failed_chats)
        else bot_ret tt
    end.

(** The loop over [members_to_add]; [R k] tells whether the lookup of the
    [k]-th member raises.  It returns [failed_members]. *)
Fixpoint notify_members (T : nat -> option string) (R : nat -> bool) (k : nat)
    (team_name chat_link : string) (members : list string)
  : Bot (list string) :=
  match members with
  | [] => bot_ret []
  | username :: rest =>
      user_id <~ lookup_user_id (R k) username ;;
      failed_here <~
        match user_id with
        | Some user_id =>
            told <~ try_log
                      (api T (SendMessage user_id
                                (TeamAddedToChatNotice team_name chat_link)) ;;;
                       bot_ret tt) ;;
            bot_ret (negb told)
        | None => bot_ret true
        end ;;
      failed <~ notify_members T R (S k) team_name chat_link rest ;;
      bot_ret (if failed_here then username :: failed else failed)
  end.

(** As in [bot_offboard_user], a failure of the service is not answered. *)
Definition bot_add_team_to_chat (T : nat -> option string) (F : nat -> bool)
    (R : nat -> bool) (update : Update) (args : list string) : Bot unit :=
  match effective_chat update with
  | None => reply_text T update (Text "Usage: /add team_name")
  | Some chat_id =>
      if no_args args || negb (effective_message update)
      then reply_text T update (Text "Usage: /add team_name")
      else
        let team_name := lower (hd "" args) in
        result <~ call_service F (AddTeamToChat chat_id team_name) ;;
        if success result
        then
          done <~ try_log
            (chat_link <~ chat_link_of T chat_id ;;
             failed_members <~ notify_members T R 0 team_name chat_link
               (match members_to_add result with Some l => l | None => [] end) ;;
             reply_text T update
               (AddedToChatReport (message result) failed_members chat_link)) ;;
          if done then bot_ret tt
          else reply_text T update (ServiceMessage (message result))
        else bot_ret tt
  end.

Definition bot_list_teams (T : nat -> option string) (F : nat -> bool)
    (update : Update) : Bot unit :=
  if negb (effective_message update) then bot_ret tt
  else
    team_names <~ call_query (get_teams F) ;;
    if no_args team_names then reply_text T update (Text "No teams exist yet!")
    else reply_text T update (TeamList team_names).

Definition bot_list_members (T : nat -> option string) (F : nat -> bool)
    (update : Update) (args : list string) : Bot unit :=
  if no_args args || negb (effective_message update)
  then reply_text T update (Text "Usage: /list_members team_name")
  else
    let team_name := lower (hd "" args) in
    members <~ call_query (get_team_members F team_name) ;;
    if no_args members then reply_text T update (NoMembers team_name)
    else reply_text T update (MemberList team_name members).

(** ** Invariants of the store *)

(** Every membership row and every link row names a team of [teams]. *)
Definition ref_integrity (db : DB) : Prop :=
  (forall u t, In (u, t) (team_members db) -> In t (teams db)) /\
  (forall c t, In (c, t) (chat_teams db) -> In t (teams db)).

(** The PRIMARY KEY constraints of the three tables. *)
Definition primary_keys (db : DB) : Prop :=
  NoDup (teams db) /\ NoDup (team_members db) /\ NoDup (chat_teams db).

(** The index of the storage call that an operation makes after its
    commit, when it makes one: connect is call 0, and AddMember and
    AddTeamToChat select, insert and commit before their final read,
    RemoveMember deletes and commits before it. *)
Definition post_commit_call (op : Op) : option nat :=
  match op with
  | AddMember _ _ | AddTeamToChat _ _ => Some 4
  | RemoveMember _ _ => Some 3
  | CreateTeam _ | OffboardUser _ => None
  end.

(** The rows the service writes are in canonical form: team names are
    lower-cased names, usernames hold no "@" and chat identifiers fit an
    SQLite INTEGER. *)
Definition canonical (db : DB) : Prop :=
  (forall t, In t (teams db) -> exists s, t = lower s) /\
  (forall u t, In (u, t) (team_members db) ->
               replace_at u = u /\ exists s, t = lower s) /\
  (forall c t, In (c, t) (chat_teams db) ->
               fits_int64 c = true /\ exists s, t = lower s).

(** Two requests that the normalisations of the service identify. *)
Definition same_request (op1 op2 : Op) : Prop :=
  match op1, op2 with
  | CreateTeam t1, CreateTeam t2 => lower t1 = lower t2
  | AddMember u1 t1, AddMember u2 t2
  | RemoveMember u1 t1, RemoveMember u2 t2 =>
      replace_at u1 = replace_at u2 /\ lower t1 = lower t2
  | AddTeamToChat c1 t1, AddTeamToChat c2 t2 => c1 = c2 /\ lower t1 = lower t2
  | OffboardUser u1, OffboardUser u2 => replace_at u1 = replace_at u2
  | _, _ => False
  end.

(** ** Auxiliary facts *)

Lemma existsb_eqb_In (t : string) (l : list string) :
  existsb (String.eqb t) l = true <-> In t l.
Proof.
  rewrite existsb_exists. split.
  - intros [x [Hx He]]. apply String.eqb_eq in He. now subst.
  - intros H. exists t. split; [assumption | apply String.eqb_refl].
Qed.

Lemma existsb_eqb_not_In (t : string) (l : list string) :
  existsb (String.eqb t) l = false <-> ~ In t l.
Proof.
  rewrite <- existsb_eqb_In. destruct (existsb _ l); split; congruence.
Qed.

Lemma member_eqb_eq (r1 r2 : string * string) :
  member_eqb r1 r2 = true <-> r1 = r2.
Proof.
  destruct r1 as [u1 t1], r2 as [u2 t2]. unfold member_eqb. cbn.
  rewrite andb_true_iff, !String.eqb_eq. split.
  - intros [-> ->]. reflexivity.
  - intros H. injection H. auto.
Qed.

Lemma link_eqb_eq (r1 r2 : Z * string) :
  link_eqb r1 r2 = true <-> r1 = r2.
Proof.
  destruct r1 as [c1 t1], r2 as [c2 t2]. unfold link_eqb. cbn.
  rewrite andb_true_iff, Z.eqb_eq, String.eqb_eq. split.
  - intros [-> ->]. reflexivity.
  - intros H. injection H. auto.
Qed.

Lemma existsb_member_In (r : string * string) (l : list (string * string)) :
  existsb (member_eqb r) l = true <-> In r l.
Proof.
  rewrite existsb_exists. split.
  - intros [x [Hx He]]. apply member_eqb_eq in He. now subst.
  - intros H. exists r. split; [assumption | now apply member_eqb_eq].
Qed.

Lemma existsb_link_In (r : Z * string) (l : list (Z * string)) :
  existsb (link_eqb r) l = true <-> In r l.
Proof.
  rewrite existsb_exists. split.
  - intros [x [Hx He]]. apply link_eqb_eq in He. now subst.
  - intros H. exists r. split; [assumption | now apply link_eqb_eq].
Qed.

Lemma filter_length_0 {A : Type} (f : A -> bool) (l : list A) :
  List.length (filter f l) = 0 <-> forall x, In x l -> f x = false.
Proof.
  induction l as [| a l IH]; cbn.
  - tauto.
  - destruct (f a) eqn:Ha; cbn.
    + split; [discriminate |]. intros H. specialize (H a (or_introl eq_refl)).
      congruence.
    + rewrite IH. split.
      * intros H x [<- | Hx]; auto.
      * intros H x Hx. apply H. now right.
Qed.

(** Unfolding an operation down to the tables. *)
Ltac run_service :=
  unfold run_op, create_team, add_member_to_team, remove_member_from_team,
    add_team_to_chat, offboard_user, get_user_teams, get_team_members,
    try_except, with_connection, select_team, insert_team, insert_member,
    insert_chat_team, delete_member, delete_user, select_chats,
    select_members, select_user_teams, select_user_chats,
    select_members_ordered, commit, storage_call, get_view, set_view,
    bind, ret, raise, ok, failure, no_fault;
  cbn.

Ltac split_ifs :=
  repeat match goal with
         | |- context [if ?b then _ else _] => destruct b eqn:?; cbn
         end.

(** ** Failure outcomes and the persisted state *)

(** C2 (amended): a mutating operation returns a response whatever storage
    call faults; when the response is a failure, the persisted tables are
    those before the call, provided the failure is not the internal error
    or the storage call that follows the commit (if the operation has one)
    did not fault. *)
Theorem failure_leaves_store_unchanged (F : nat -> bool) (op : Op) (db : DB) :
  success (fst (run_op F op db)) = false ->
  message (fst (run_op F op db)) <> InternalServerError \/
  (forall k, post_commit_call op = Some k -> F k = false) ->
  snd (run_op F op db) = db.
Proof.
  destruct op; run_service; split_ifs; intros Hs Hc;
    try reflexivity; try discriminate;
    destruct Hc as [Hc | Hc];
    try congruence;
    match goal with
    | H : F ?k = true |- _ => rewrite (Hc k eq_refl) in H; discriminate
    end.
Qed.

(** ** Referential integrity *)

(** C5: every membership row and every link row names an existing team.
    This holds of the empty store and every operation preserves it, whatever
    the storage faults; no operation removes a row of [teams]. *)
Theorem referential_integrity_invariant :
  ref_integrity empty_db /\
  forall (F : nat -> bool) (op : Op) (db : DB),
    ref_integrity db ->
    ref_integrity (snd (run_op F op db)) /\
    incl (teams db) (teams (snd (run_op F op db))).
Proof.
  split.
  - split; cbn; tauto.
  - intros F op db [Hm Hc].
    destruct op; run_service; split_ifs;
      (split; [split; cbn; intros a t Hin | intros t Hin; cbn]);
      repeat match goal with
             | H : negb _ = false |- _ => apply negb_false_iff in H
             | H : existsb (String.eqb _) _ = true |- _ =>
                 apply existsb_eqb_In in H
             | H : In _ (_ ++ _) |- _ => apply in_app_or in H; destruct H
             | H : In _ (filter _ _) |- _ => apply filter_In in H; destruct H
             | H : In _ [_] |- _ => destruct H as [H | []]; inversion H; subst
             end;
      eauto using in_or_app.
Qed.

(** The PRIMARY KEY constraints hold in every state the service reaches. *)
Lemma NoDup_snoc {A : Type} (l : list A) (x : A) :
  NoDup l -> ~ In x l -> NoDup (l ++ [x]).
Proof.
  intros Hl Hx. apply NoDup_app.
  - assumption.
  - constructor; [intros [] | constructor].
  - intros a Ha [<- | []]. contradiction.
Qed.

Lemma primary_keys_preserved (F : nat -> bool) (op : Op) (db : DB) :
  primary_keys db -> primary_keys (snd (run_op F op db)).
Proof.
  intros (Ht & Hm & Hc).
  destruct op; run_service; split_ifs; unfold primary_keys; cbn;
    repeat match goal with
           | H : negb _ = false |- _ => apply negb_false_iff in H
           | H : existsb (String.eqb _) _ = false |- _ =>
               apply existsb_eqb_not_In in H
           | H : existsb (member_eqb ?r) ?l = false |- _ =>
               assert (~ In r l) by (rewrite <- existsb_member_In; congruence);
               clear H
           | H : existsb (link_eqb ?r) ?l = false |- _ =>
               assert (~ In r l) by (rewrite <- existsb_link_In; congruence);
               clear H
           end;
    repeat split; auto using NoDup_snoc, NoDup_filter.
Qed.

(** ** The operations when no storage call faults *)

Lemma create_team_eq (team_name : string) (db : DB) :
  create_team no_fault team_name db =
  if existsb (String.eqb (lower team_name)) (teams db)
  then (failure (TeamAlreadyExists (lower team_name)), db)
  else (ok (TeamCreated (lower team_name)),
        mkDB (teams db ++ [lower team_name]) (team_members db) (chat_teams db)).
Proof. run_service. split_ifs; first [reflexivity | cbn in *; congruence]. Qed.

Lemma add_member_to_team_eq (username team_name : string) (db : DB) :
  add_member_to_team no_fault username team_name db =
  let u := replace_at username in
  let t := lower team_name in
  if existsb (String.eqb t) (teams db)
  then if existsb (member_eqb (u, t)) (team_members db)
       then (failure (UserAlreadyInTeam u t), db)
       else (mkResponse true (AddedUser u t) (Some (chats_of_team t db))
                        None None,
             mkDB (teams db) (team_members db ++ [(u, t)]) (chat_teams db))
  else (failure (TeamDoesntExist t), db).
Proof. run_service. split_ifs; first [reflexivity | cbn in *; congruence]. Qed.

Lemma remove_member_from_team_eq (username team_name : string) (db : DB) :
  remove_member_from_team no_fault username team_name db =
  let u := replace_at username in
  let t := lower team_name in
  if existsb (member_eqb (u, t)) (team_members db)
  then (mkResponse true (RemovedUser u t) None (Some (chats_of_team t db))
                   None,
        mkDB (teams db)
             (filter (fun r => negb (member_eqb (u, t) r)) (team_members db))
             (chat_teams db))
  else (failure (UserNotInTeam u t), db).
Proof.
  run_service.
  destruct (existsb _ (team_members db)) eqn:He.
  - apply existsb_member_In in He.
    destruct (Nat.eqb _ 0) eqn:Hn; cbn; [| reflexivity].
    apply Nat.eqb_eq in Hn.
    pose proof (proj1 (filter_length_0 _ _) Hn _ He).
    assert (member_eqb (replace_at username, lower team_name)
                       (replace_at username, lower team_name) = true)
      by now apply member_eqb_eq.
    congruence.
  - destruct (Nat.eqb _ 0) eqn:Hn; cbn; [reflexivity |].
    apply Nat.eqb_neq in Hn. exfalso. apply Hn. apply (proj2 (filter_length_0 _ _)).
    intros x Hx. destruct (member_eqb _ x) eqn:Hm; [| reflexivity].
    apply member_eqb_eq in Hm. subst x.
    apply existsb_member_In in Hx. congruence.
Qed.

Lemma rowcount_eqb_0 {A : Type} (f : A -> bool) (l : list A) :
  Nat.eqb (List.length (filter f l)) 0 = negb (existsb f l).
Proof.
  induction l as [| a l IH]; cbn; [reflexivity |].
  destruct (f a); cbn; [reflexivity | exact IH].
Qed.

Lemma add_team_to_chat_eq (chat_id : Z) (team_name : string) (db : DB) :
  add_team_to_chat no_fault chat_id team_name db =
  let t := lower team_name in
  if existsb (String.eqb t) (teams db)
  then if fits_int64 chat_id
       then if existsb (link_eqb (chat_id, t)) (chat_teams db)
            then (failure (TeamAlreadyInChat t), db)
            else (mkResponse true (AddedTeamToChat t) None None
                             (Some (members_of_team t db)),
                  mkDB (teams db) (team_members db)
                       (chat_teams db ++ [(chat_id, t)]))
       else (failure InternalServerError, db)
  else (failure (TeamDoesntExist t), db).
Proof. run_service. split_ifs; first [reflexivity | cbn in *; congruence]. Qed.

Lemma offboard_user_eq (username : string) (db : DB) :
  offboard_user no_fault username db =
  let u := replace_at username in
  if existsb (fun r => String.eqb u (fst r)) (team_members db)
  then (mkResponse true (UserOffboarded u) None (Some (chats_of_user u db))
                   None,
        mkDB (teams db)
             (filter (fun r => negb (String.eqb u (fst r))) (team_members db))
             (chat_teams db))
  else (failure (UserNotInAnyTeams u), db).
Proof.
  run_service. rewrite rowcount_eqb_0.
  destruct (existsb _ (team_members db)); reflexivity.
Qed.

(** ** Unknown teams *)

(** C9: whatever the username, AddMember on a team that is not in [teams]
    answers that the team does not exist and leaves the tables as they
    were; under storage faults too the tables are left as they were. *)
Theorem add_member_unknown_team (username team_name : string) (db : DB) :
  ~ In (lower team_name) (teams db) ->
  add_member_to_team no_fault username team_name db =
    (failure (TeamDoesntExist (lower team_name)), db) /\
  forall F, snd (add_member_to_team F username team_name db) = db.
Proof.
  intros Hn. apply existsb_eqb_not_In in Hn. split.
  - rewrite add_member_to_team_eq. cbn. rewrite Hn. reflexivity.
  - intros F. run_service.
    split_ifs; try reflexivity; rewrite Hn in *; cbn in *; congruence.
Qed.

(** C10: RemoveMember never looks at [teams].  With a team name that does
    not exist it answers "user is not in team", the same response as for a
    non-member of an existing team, and never "team doesn't exist". *)
Theorem remove_member_ignores_team_existence
    (username team_name : string) (db1 db2 : DB) :
  ref_integrity db1 ->
  ~ In (lower team_name) (teams db1) ->
  In (lower team_name) (teams db2) ->
  ~ In (replace_at username, lower team_name) (team_members db2) ->
  remove_member_from_team no_fault username team_name db1 =
    (failure (UserNotInTeam (replace_at username) (lower team_name)), db1) /\
  fst (remove_member_from_team no_fault username team_name db2) =
    fst (remove_member_from_team no_fault username team_name db1).
Proof.
  intros [Hm _] Hn1 Hin2 Hn2.
  assert (H1 : existsb (member_eqb (replace_at username, lower team_name))
                       (team_members db1) = false).
  { destruct (existsb _ (team_members db1)) eqn:He; [| reflexivity].
    apply existsb_member_In in He. apply Hm in He. contradiction. }
  assert (H2 : existsb (member_eqb (replace_at username, lower team_name))
                       (team_members db2) = false).
  { destruct (existsb _ (team_members db2)) eqn:He; [| reflexivity].
    apply existsb_member_In in He. contradiction. }
  rewrite !remove_member_from_team_eq. cbn. rewrite H1, H2. split; reflexivity.
Qed.

(** ** Sequences of calls *)

(** C6: when two team names have the same lower-case form, CreateTeam of
    the first then CreateTeam of the second answers "already exists" on the
    second call, and [teams] then holds exactly one row for that form. *)
Theorem create_team_twice (name1 name2 : string) (db : DB) :
  primary_keys db ->
  lower name1 = lower name2 ->
  let s1 := create_team no_fault name1 db in
  let s2 := create_team no_fault name2 (snd s1) in
  fst s2 = failure (TeamAlreadyExists (lower name2)) /\
  count_occ string_dec (teams (snd s2)) (lower name1) = 1.
Proof.
  intros (Ht & _ & _) Heq. cbv zeta.
  rewrite (create_team_eq name1). rewrite <- Heq.
  destruct (existsb (String.eqb (lower name1)) (teams db)) eqn:He; cbn [snd].
  - rewrite create_team_eq, <- Heq, He. cbn. split; [reflexivity |].
    apply existsb_eqb_In in He.
    now apply NoDup_count_occ'.
  - rewrite create_team_eq, <- Heq. cbn [teams].
    assert (Hin : existsb (String.eqb (lower name1))
                          (teams db ++ [lower name1]) = true).
    { apply existsb_eqb_In, in_or_app. right. now left. }
    rewrite Hin. cbn. split; [reflexivity |].
    apply existsb_eqb_not_In in He.
    rewrite count_occ_app.
    rewrite (proj1 (count_occ_not_In string_dec _ _) He). cbn.
    destruct (string_dec (lower name1) (lower name1)); [reflexivity | congruence].
Qed.

(** C4: for a team that exists, AddMember twice answers "already in team"
    on the second call, and AddMember, RemoveMember, AddMember succeeds on
    the last call, whose membership row is then stored. *)
Theorem add_member_twice_and_readd (username team_name : string) (db : DB) :
  In (lower team_name) (teams db) ->
  let u := replace_at username in
  let t := lower team_name in
  let s1 := add_member_to_team no_fault username team_name db in
  let s2 := add_member_to_team no_fault username team_name (snd s1) in
  let s3 := remove_member_from_team no_fault username team_name (snd s1) in
  let s4 := add_member_to_team no_fault username team_name (snd s3) in
  fst s2 = failure (UserAlreadyInTeam u t) /\
  success (fst s3) = true /\
  success (fst s4) = true /\
  message (fst s4) = AddedUser u t /\
  In (u, t) (team_members (snd s4)).
Proof.
  intros Hin. cbv zeta.
  apply existsb_eqb_In in Hin.
  set (u := replace_at username) in *. set (t := lower team_name) in *.
  assert (H1 : teams (snd (add_member_to_team no_fault username team_name db))
               = teams db /\
               existsb (member_eqb (u, t))
                 (team_members
                    (snd (add_member_to_team no_fault username team_name db)))
               = true).
  { rewrite add_member_to_team_eq. cbv zeta. fold u t. rewrite Hin.
    destruct (existsb (member_eqb (u, t)) (team_members db)) eqn:He; cbn.
    - split; [reflexivity | exact He].
    - split; [reflexivity |].
      apply existsb_member_In, in_or_app. right. now left. }
  destruct H1 as [Ht1 Hm1].
  set (db1 := snd (add_member_to_team no_fault username team_name db)) in *.
  assert (H3 : remove_member_from_team no_fault username team_name db1 =
               (mkResponse true (RemovedUser u t) None
                           (Some (chats_of_team t db1)) None,
                mkDB (teams db1)
                     (filter (fun r => negb (member_eqb (u, t) r))
                             (team_members db1))
                     (chat_teams db1))).
  { rewrite remove_member_from_team_eq. cbv zeta. fold u t.
    rewrite Hm1. reflexivity. }
  rewrite H3. cbn [fst snd success].
  assert (H4 : existsb (member_eqb (u, t))
                 (filter (fun r => negb (member_eqb (u, t) r))
                         (team_members db1)) = false).
  { destruct (existsb _ (filter _ _)) eqn:He; [| reflexivity].
    apply existsb_member_In, filter_In in He. destruct He as [_ He].
    assert (member_eqb (u, t) (u, t) = true) by now apply member_eqb_eq.
    rewrite H in He. discriminate. }
  rewrite !add_member_to_team_eq. cbv zeta. fold u t. cbn [teams team_members].
  rewrite Ht1, Hin, Hm1, H4. cbn.
  repeat split. apply in_or_app. right. now left.
Qed.

(** ** What the queries return *)

Lemma members_of_team_In (u t : string) (db : DB) :
  In u (members_of_team t db) <-> In (u, t) (team_members db).
Proof.
  unfold members_of_team. rewrite in_map_iff. split.
  - intros [[u' t'] [Hu Hf]]. cbn in Hu. subst u'.
    apply filter_In in Hf. destruct Hf as [Hin He]. cbn in He.
    apply String.eqb_eq in He. now subst t'.
  - intros Hin. exists (u, t). split; [reflexivity |].
    apply filter_In. split; [assumption | apply String.eqb_refl].
Qed.

Lemma teams_of_user_In (u t : string) (db : DB) :
  In t (teams_of_user u db) <-> In (u, t) (team_members db).
Proof.
  unfold teams_of_user. rewrite in_map_iff. split.
  - intros [[u' t'] [Ht Hf]]. cbn in Ht. subst t'.
    apply filter_In in Hf. destruct Hf as [Hin He]. cbn in He.
    apply String.eqb_eq in He. now subst u'.
  - intros Hin. exists (u, t). split; [reflexivity |].
    apply filter_In. split; [assumption | apply String.eqb_refl].
Qed.

Lemma chats_of_user_In (u : string) (c : Z) (db : DB) :
  In c (chats_of_user u db) <->
  exists t, In (u, t) (team_members db) /\ In (c, t) (chat_teams db).
Proof.
  unfold chats_of_user. rewrite nodup_In, in_map_iff. split.
  - intros [[c' t] [Hc Hf]]. cbn in Hc. subst c'.
    apply filter_In in Hf. destruct Hf as [Hin He]. cbn in He.
    apply existsb_eqb_In, teams_of_user_In in He. now exists t.
  - intros [t [Hm Hl]]. exists (c, t). split; [reflexivity |].
    apply filter_In. split; [assumption |]. cbn.
    now apply existsb_eqb_In, teams_of_user_In.
Qed.

Lemma insert_sorted_perm (x : string) (l : list string) :
  Permutation (x :: l) (insert_sorted x l).
Proof.
  induction l as [| y l IH]; cbn.
  - apply Permutation_refl.
  - destruct (String.leb x y).
    + apply Permutation_refl.
    + eapply perm_trans; [apply perm_swap |]. now apply perm_skip.
Qed.

Lemma order_by_perm (l : list string) : Permutation l (order_by l).
Proof.
  induction l as [| x l IH]; cbn.
  - constructor.
  - eapply perm_trans; [apply perm_skip, IH | apply insert_sorted_perm].
Qed.

Lemma insert_sorted_sorted (x : string) (l : list string) :
  Sorted str_le l -> Sorted str_le (insert_sorted x l).
Proof.
  induction l as [| y l IH]; cbn; intros Hs.
  - repeat constructor.
  - destruct (String.leb x y) eqn:Hxy.
    + constructor; [assumption | constructor; exact Hxy].
    + inversion Hs as [| ? ? Hl Hhd]; subst.
      constructor; [now apply IH |].
      assert (Hyx : str_le y x).
      { destruct (String.leb_total x y) as [H | H]; [congruence | exact H]. }
      destruct l as [| z l]; cbn.
      * constructor. exact Hyx.
      * destruct (String.leb x z); constructor; [exact Hyx |].
        now inversion Hhd.
Qed.

Lemma order_by_sorted (l : list string) : Sorted str_le (order_by l).
Proof.
  induction l as [| x l IH]; cbn.
  - constructor.
  - now apply insert_sorted_sorted.
Qed.

(** C8: ListTeamMembers returns the usernames of the team's membership
    rows in ascending lexicographic order; it never reads [teams], so it
    returns the empty list, and no error, for a team without members and for
    a team that does not exist alike. *)
Theorem get_team_members_spec (team_name : string) (db : DB) :
  exists members,
    get_team_members no_fault team_name db = inl members /\
    Sorted str_le members /\
    Permutation (members_of_team (lower team_name) db) members /\
    (forall u, In u members <-> In (u, lower team_name) (team_members db)) /\
    ((forall u, ~ In (u, lower team_name) (team_members db)) ->
     members = []) /\
    (ref_integrity db -> ~ In (lower team_name) (teams db) -> members = []) /\
    (forall ts, get_team_members no_fault team_name
                  (mkDB ts (team_members db) (chat_teams db)) = inl members).
Proof.
  exists (order_by (members_of_team (lower team_name) db)).
  assert (Hin : forall u,
             In u (order_by (members_of_team (lower team_name) db)) <->
             In (u, lower team_name) (team_members db)).
  { intros u. rewrite <- members_of_team_In. split; intros H.
    - eapply Permutation_in; [apply Permutation_sym, order_by_perm | exact H].
    - eapply Permutation_in; [apply order_by_perm | exact H]. }
  assert (Hempty : (forall u, ~ In (u, lower team_name) (team_members db)) ->
                   order_by (members_of_team (lower team_name) db) = []).
  { intros Hno.
    destruct (order_by (members_of_team (lower team_name) db)) as [| u l] eqn:E;
      [reflexivity |].
    exfalso. apply (Hno u). apply Hin. now left. }
  repeat split.
  - apply order_by_sorted.
  - apply order_by_perm.
  - apply Hin.
  - apply Hin.
  - exact Hempty.
  - intros [Hm _] Hn. apply Hempty. intros u Hu. apply Hn. eapply Hm, Hu.
Qed.

(** C7 (amended): AddTeamToChat answers "team doesn't exist" when the team
    is not in [teams], whatever the chat identifier.  For an existing team
    and a chat identifier that fits an SQLite INTEGER, the first call stores
    the link and succeeds when the pair was not linked, answers "already in
    this chat" when it was, and a second call for the same chat and team
    answers "already in this chat".  Whenever a call succeeds it returns the
    usernames of all the current membership rows of the team, and a second
    call then answers "already in this chat". *)
Theorem add_team_to_chat_spec (chat_id : Z) (team_name : string) (db : DB) :
  let t := lower team_name in
  (~ In t (teams db) ->
   add_team_to_chat no_fault chat_id team_name db =
     (failure (TeamDoesntExist t), db)) /\
  (In t (teams db) ->
   fits_int64 chat_id = true ->
   let s1 := add_team_to_chat no_fault chat_id team_name db in
   (~ In (chat_id, t) (chat_teams db) ->
    s1 = (mkResponse true (AddedTeamToChat t) None None
                     (Some (members_of_team t db)),
          mkDB (teams db) (team_members db)
               (chat_teams db ++ [(chat_id, t)]))) /\
   (In (chat_id, t) (chat_teams db) ->
    s1 = (failure (TeamAlreadyInChat t), db)) /\
   In (chat_id, t) (chat_teams (snd s1)) /\
   add_team_to_chat no_fault chat_id team_name (snd s1) =
     (failure (TeamAlreadyInChat t), snd s1)) /\
  (forall F,
     let s1 := add_team_to_chat F chat_id team_name db in
     success (fst s1) = true ->
     In t (teams db) /\
     (exists members,
        members_to_add (fst s1) = Some members /\
        forall u, In u members <-> In (u, t) (team_members (snd s1))) /\
     In (chat_id, t) (chat_teams (snd s1)) /\
     add_team_to_chat no_fault chat_id team_name (snd s1) =
       (failure (TeamAlreadyInChat t), snd s1)).
Proof.
  cbv zeta.
  assert (Hl : existsb (link_eqb (chat_id, lower team_name))
                 (chat_teams db ++ [(chat_id, lower team_name)]) = true)
    by (apply existsb_link_In, in_or_app; right; now left).
  split; [| split].
  - intros Hn. apply existsb_eqb_not_In in Hn.
    rewrite add_team_to_chat_eq. cbv zeta. rewrite Hn. reflexivity.
  - intros Hin Hfit. apply existsb_eqb_In in Hin.
    rewrite (add_team_to_chat_eq chat_id team_name db). cbv zeta.
    rewrite Hin, Hfit.
    destruct (existsb (link_eqb (chat_id, lower team_name)) (chat_teams db))
      eqn:He.
    + pose proof (proj1 (existsb_link_In _ _) He) as Hlinked.
      split; [intros Hn; contradiction |].
      split; [reflexivity |]. split; [exact Hlinked |].
      cbn [snd]. rewrite add_team_to_chat_eq. cbv zeta.
      rewrite Hin, Hfit, He. reflexivity.
    + split; [reflexivity |]. split.
      * intros Hlinked. apply existsb_link_In in Hlinked. congruence.
      * split; [cbn; apply in_or_app; right; now left |].
        cbn [snd]. rewrite add_team_to_chat_eq. cbv zeta. cbn [teams chat_teams].
        rewrite Hin, Hfit, Hl. reflexivity.
  - intros F. rewrite add_team_to_chat_eq. cbv zeta. run_service.
    split_ifs; intros Hs; try discriminate; try congruence.
    repeat split.
    + now apply existsb_eqb_In.
    + eexists. split; [reflexivity |]. intros u. apply members_of_team_In.
    + apply in_or_app. right. now left.
Qed.

(** ** Offboarding *)

Lemma existsb_user_In (u : string) (l : list (string * string)) :
  existsb (fun r => String.eqb u (fst r)) l = true <-> exists t, In (u, t) l.
Proof.
  rewrite existsb_exists. split.
  - intros [[u' t] [Hin He]]. cbn in He. apply String.eqb_eq in He.
    subst u'. now exists t.
  - intros [t Hin]. exists (u, t). split; [assumption | apply String.eqb_refl].
Qed.

Lemma teams_of_user_deleted (u : string) (ts : list string)
    (ms : list (string * string)) (cs : list (Z * string)) :
  teams_of_user u
    (mkDB ts (filter (fun r => negb (String.eqb u (fst r))) ms) cs) = [].
Proof.
  unfold teams_of_user. cbn.
  induction ms as [| [u' t] ms IH]; cbn; [reflexivity |].
  destruct (String.eqb u u') eqn:He; cbn; [exact IH |].
  rewrite He. exact IH.
Qed.

Lemma chats_of_user_deleted (u : string) (ts : list string)
    (ms : list (string * string)) (cs : list (Z * string)) :
  chats_of_user u
    (mkDB ts (filter (fun r => negb (String.eqb u (fst r))) ms) cs) = [].
Proof.
  unfold chats_of_user. rewrite teams_of_user_deleted. cbn.
  induction cs as [| x l IH]; [reflexivity | exact IH].
Qed.

(** C3: for a user with at least one membership row, OffboardUser succeeds
    and returns the distinct chat identifiers linked to the teams the user
    was in before the call, deletes exactly the user's membership rows, and
    ListUserTeams is empty afterwards (as the chat query would be had it run
    after the deletion); for a user without membership rows it answers "not
    in any teams" and the tables are left as they were. *)
Theorem offboard_user_spec (username : string) (db : DB) :
  let u := replace_at username in
  let s := offboard_user no_fault username db in
  ((exists t, In (u, t) (team_members db)) ->
   success (fst s) = true /\
   message (fst s) = UserOffboarded u /\
   (exists chats,
      chats_to_remove (fst s) = Some chats /\
      NoDup chats /\
      forall c, In c chats <->
                exists t, In (u, t) (team_members db) /\
                          In (c, t) (chat_teams db)) /\
   (forall r, In r (team_members (snd s)) <->
              In r (team_members db) /\ fst r <> u) /\
   teams (snd s) = teams db /\
   chat_teams (snd s) = chat_teams db /\
   get_user_teams no_fault username (snd s) = inl [] /\
   chats_of_user u (snd s) = []) /\
  ((forall t, ~ In (u, t) (team_members db)) ->
   s = (failure (UserNotInAnyTeams u), db)).
Proof.
  cbv zeta. rewrite offboard_user_eq. cbv zeta.
  set (u := replace_at username).
  destruct (existsb (fun r => String.eqb u (fst r)) (team_members db)) eqn:He.
  - split.
    + intros _. cbn [fst snd success message chats_to_remove teams chat_teams
                     team_members].
      assert (Hrows : forall r,
                 In r (filter (fun r => negb (String.eqb u (fst r)))
                              (team_members db)) <->
                 In r (team_members db) /\ fst r <> u).
      { intros r. rewrite filter_In, negb_true_iff, String.eqb_neq.
        split; intros [Hr Hne]; (split; [exact Hr | congruence]). }
      assert (Hchats : exists chats,
                 Some (chats_of_user u db) = Some chats /\
                 NoDup chats /\
                 forall c, In c chats <->
                           exists t, In (u, t) (team_members db) /\
                                     In (c, t) (chat_teams db)).
      { exists (chats_of_user u db). split; [reflexivity |]. split.
        - apply NoDup_nodup.
        - intros c. apply chats_of_user_In. }
      assert (Hteams : get_user_teams no_fault username
                (mkDB (teams db)
                      (filter (fun r => negb (String.eqb u (fst r)))
                              (team_members db))
                      (chat_teams db)) = inl []).
      { unfold get_user_teams, with_connection, select_user_teams, bind,
          storage_call, get_view, ret, no_fault. cbn. fold u.
        f_equal.
        apply (teams_of_user_deleted u (teams db) (team_members db)
                 (chat_teams db)). }
      assert (Hafter : chats_of_user u
                (mkDB (teams db)
                      (filter (fun r => negb (String.eqb u (fst r)))
                              (team_members db))
                      (chat_teams db)) = []).
      { apply chats_of_user_deleted. }
      auto 10.
    + intros Hno. apply existsb_user_In in He. destruct He as [t Ht].
      now apply Hno in Ht.
  - split.
    + intros Hex. apply existsb_user_In in Hex. congruence.
    + reflexivity.
Qed.

(** ** Further properties of the service *)

(** X1: the PRIMARY KEY constraints hold of the empty store and every
    operation preserves them, whatever the storage faults. *)
Theorem primary_keys_invariant :
  primary_keys empty_db /\
  forall (F : nat -> bool) (op : Op) (db : DB),
    primary_keys db -> primary_keys (snd (run_op F op db)).
Proof.
  split.
  - repeat split; constructor.
  - intros F op db H. now apply primary_keys_preserved.
Qed.

(** X2: under any fault schedule an operation either behaves exactly as the
    fault-free run, or answers the internal error; in that case the store is
    either untouched or holds the complete write of the fault-free run. *)
Theorem faults_are_all_or_nothing (F : nat -> bool) (op : Op) (db : DB) :
  run_op F op db = run_op no_fault op db \/
  (fst (run_op F op db) = failure InternalServerError /\
   (snd (run_op F op db) = db \/
    snd (run_op F op db) = snd (run_op no_fault op db))).
Proof.
  destruct op; run_service; split_ifs;
    first [ left; reflexivity
          | right; split; [reflexivity | left; reflexivity]
          | right; split; [reflexivity | right; reflexivity] ].
Qed.

(** X3: each operation writes to one table only: CreateTeam to [teams],
    AddMember, RemoveMember and OffboardUser to [team_members],
    AddTeamToChat to [chat_teams]. *)
Theorem operations_write_one_table (F : nat -> bool) (op : Op) (db : DB) :
  match op with
  | CreateTeam _ =>
      team_members (snd (run_op F op db)) = team_members db /\
      chat_teams (snd (run_op F op db)) = chat_teams db
  | AddMember _ _ | RemoveMember _ _ | OffboardUser _ =>
      teams (snd (run_op F op db)) = teams db /\
      chat_teams (snd (run_op F op db)) = chat_teams db
  | AddTeamToChat _ _ =>
      teams (snd (run_op F op db)) = teams db /\
      team_members (snd (run_op F op db)) = team_members db
  end.
Proof.
  destruct op; run_service; split_ifs; split; reflexivity.
Qed.

Lemma replace_at_idempotent (s : string) :
  replace_at (replace_at s) = replace_at s.
Proof.
  induction s as [| c s IH]; cbn; [reflexivity |].
  destruct (Ascii.eqb c "@") eqn:E; [exact IH |].
  cbn. rewrite E, IH. reflexivity.
Qed.

(** X4: the rows of the empty store are in canonical form and every
    operation keeps them so: a stored team name is a lower-cased name, a
    stored username holds no "@", a stored chat identifier fits 64 bits. *)
Theorem canonical_invariant :
  canonical empty_db /\
  forall (F : nat -> bool) (op : Op) (db : DB),
    canonical db -> canonical (snd (run_op F op db)).
Proof.
  split.
  - repeat split; cbn in *; contradiction.
  - intros F op db (Ht & Hm & Hc).
    destruct op; run_service; split_ifs;
      (split; [| split]); cbn; intros;
      repeat match goal with
             | H : negb _ = false |- _ => apply negb_false_iff in H
             | H : In _ (_ ++ _) |- _ => apply in_app_or in H; destruct H
             | H : In _ (filter _ _) |- _ => apply filter_In in H; destruct H
             | H : In _ [_] |- _ => destruct H as [H | []]; inversion H; subst
             end;
      eauto using replace_at_idempotent.
Qed.

(** X13: the operations read their arguments through the normalisations
    only: two requests with the same lower-cased team name and the same
    username up to "@" have the same response and the same effect. *)
Theorem same_request_same_run (F : nat -> bool) (op1 op2 : Op) (db : DB) :
  same_request op1 op2 -> run_op F op1 db = run_op F op2 db.
Proof.
  destruct op1, op2; cbn; try contradiction;
    unfold create_team, add_member_to_team, remove_member_from_team,
      add_team_to_chat, offboard_user; cbv zeta.
  - intros ->. reflexivity.
  - intros [-> ->]. reflexivity.
  - intros [-> ->]. reflexivity.
  - intros [-> ->]. reflexivity.
  - intros ->. reflexivity.
Qed.

Lemma order_by_In (x : string) (l : list string) :
  In x (order_by l) <-> In x l.
Proof.
  split; intros H.
  - eapply Permutation_in; [apply Permutation_sym, order_by_perm | exact H].
  - eapply Permutation_in; [apply order_by_perm | exact H].
Qed.

(** X5: after a CreateTeam that succeeds, ListTeams returns, in ascending
    order, the names that were stored before together with the new
    lower-cased name, which was not stored before. *)
Theorem create_team_then_get_teams (F : nat -> bool) (name : string) (db : DB) :
  success (fst (create_team F name db)) = true ->
  ~ In (lower name) (teams db) /\
  exists l,
    get_teams no_fault (snd (create_team F name db)) = inl l /\
    Sorted str_le l /\
    forall t, In t l <-> t = lower name \/ In t (teams db).
Proof.
  run_service. split_ifs; intros Hs; try discriminate.
  split.
  - now apply existsb_eqb_not_In.
  - eexists. split; [reflexivity |]. split; [apply order_by_sorted |].
    intros t. rewrite order_by_In, in_app_iff. cbn.
    split; intros [H | H]; auto.
    destruct H as [H | []]. left. now symmetry.
Qed.

(** X6: after an AddMember that succeeds, the response lists exactly the
    chats linked to the team, ListUserTeams of the user holds the team and
    ListTeamMembers of the team holds the user. *)
Theorem add_member_then_lookups (F : nat -> bool) (username team_name : string)
    (db : DB) :
  success (fst (add_member_to_team F username team_name db)) = true ->
  (exists chats,
     chats_to_add (fst (add_member_to_team F username team_name db))
       = Some chats /\
     forall c, In c chats <-> In (c, lower team_name) (chat_teams db)) /\
  (exists ts,
     get_user_teams no_fault username
       (snd (add_member_to_team F username team_name db)) = inl ts /\
     In (lower team_name) ts) /\
  (exists ms,
     get_team_members no_fault team_name
       (snd (add_member_to_team F username team_name db)) = inl ms /\
     In (replace_at username) ms).
Proof.
  run_service. split_ifs; intros Hs; try discriminate.
  split; [| split].
  - eexists. split; [reflexivity |]. intros c.
    rewrite in_map_iff. split.
    + intros [[c' t] [Hc Hf]]. cbn in Hc. subst c'.
      apply filter_In in Hf. destruct Hf as [Hin He]. cbn in He.
      apply String.eqb_eq in He. now subst t.
    + intros Hin. exists (c, lower team_name). split; [reflexivity |].
      apply filter_In. split; [assumption | apply String.eqb_refl].
  - eexists. split; [reflexivity |].
    apply (teams_of_user_In (replace_at username) (lower team_name)
             (mkDB (teams db)
                   (team_members db ++ [(replace_at username, lower team_name)])
                   (chat_teams db))).
    cbn. apply in_or_app. right. now left.
  - eexists. split; [reflexivity |].
    apply order_by_In.
    apply (members_of_team_In (replace_at username) (lower team_name)
             (mkDB (teams db)
                   (team_members db ++ [(replace_at username, lower team_name)])
                   (chat_teams db))).
    cbn. apply in_or_app. right. now left.
Qed.

(** X7: after a RemoveMember that succeeds, the response lists exactly the
    chats linked to the team, the membership rows are those of before
    without the pair removed, ListTeamMembers of the team no longer holds
    the user, and a second RemoveMember answers "not in team". *)
Theorem remove_member_then_lookups (F : nat -> bool)
    (username team_name : string) (db : DB) :
  success (fst (remove_member_from_team F username team_name db)) = true ->
  (exists chats,
     chats_to_remove (fst (remove_member_from_team F username team_name db))
       = Some chats /\
     forall c, In c chats <-> In (c, lower team_name) (chat_teams db)) /\
  (forall r,
     In r (team_members (snd (remove_member_from_team F username team_name db)))
     <-> In r (team_members db) /\ r <> (replace_at username, lower team_name))
  /\
  (exists ms,
     get_team_members no_fault team_name
       (snd (remove_member_from_team F username team_name db)) = inl ms /\
     ~ In (replace_at username) ms) /\
  fst (remove_member_from_team no_fault username team_name
         (snd (remove_member_from_team F username team_name db))) =
    failure (UserNotInTeam (replace_at username) (lower team_name)).
Proof.
  set (u := replace_at username). set (t := lower team_name).
  assert (Hrows : forall r,
             In r (filter (fun r => negb (member_eqb (u, t) r)) (team_members db))
             <-> In r (team_members db) /\ r <> (u, t)).
  { intros r. rewrite filter_In, negb_true_iff. split; intros [Hin Hne].
    - split; [exact Hin |]. intros ->.
      assert (member_eqb (u, t) (u, t) = true) by now apply member_eqb_eq.
      congruence.
    - split; [exact Hin |].
      destruct (member_eqb (u, t) r) eqn:E; [| reflexivity].
      apply member_eqb_eq in E. congruence. }
  assert (Hgone : existsb (member_eqb (u, t))
                    (filter (fun r => negb (member_eqb (u, t) r))
                            (team_members db)) = false).
  { destruct (existsb _ (filter _ _)) eqn:He; [| reflexivity].
    apply existsb_member_In, Hrows in He. destruct He as [_ He]. congruence. }
  rewrite (remove_member_from_team_eq username team_name
             (snd (remove_member_from_team F username team_name db))).
  cbv zeta. fold u t.
  run_service. fold u t. split_ifs; intros Hs; try discriminate;
    fold u t in Hgone; try congruence.
  split; [| split; [| split]].
  - eexists. split; [reflexivity |]. intros c.
    rewrite in_map_iff. split.
    + intros [[c' t'] [Hc Hf]]. cbn in Hc. subst c'.
      apply filter_In in Hf. destruct Hf as [Hin He]. cbn in He.
      apply String.eqb_eq in He. now subst t'.
    + intros Hin. exists (c, t). split; [reflexivity |].
      apply filter_In. split; [assumption | apply String.eqb_refl].
  - exact Hrows.
  - eexists. split; [reflexivity |]. intros Hin.
    apply (proj1 (order_by_In _ _)) in Hin.
    apply (proj1 (members_of_team_In u t
                    (mkDB (teams db)
                          (filter (fun r => negb (member_eqb (u, t) r))
                                  (team_members db))
                          (chat_teams db)))) in Hin.
    cbn in Hin. apply Hrows in Hin. destruct Hin as [_ Hin]. congruence.
  - reflexivity.
Qed.

(** X8: after an AddTeamToChat that succeeds, ListChatTeams of the chat
    holds the team, and it returns the teams of exactly the link rows of the
    chat. *)
Theorem add_team_to_chat_then_get_chat_teams (F : nat -> bool) (chat_id : Z)
    (team_name : string) (db : DB) :
  success (fst (add_team_to_chat F chat_id team_name db)) = true ->
  exists ts,
    get_chat_teams no_fault chat_id
      (snd (add_team_to_chat F chat_id team_name db)) = inl ts /\
    In (lower team_name) ts /\
    forall t, In t ts <-> t = lower team_name \/ In (chat_id, t) (chat_teams db).
Proof.
  unfold get_chat_teams, select_chat_teams.
  run_service. split_ifs; intros Hs; try discriminate; try congruence.
  assert (Hts : forall t,
             In t (map snd (filter (fun r => Z.eqb chat_id (fst r))
                                   (chat_teams db ++ [(chat_id, lower team_name)])))
             <-> t = lower team_name \/ In (chat_id, t) (chat_teams db)).
  { intros t. rewrite in_map_iff. split.
    - intros [[c t'] [Ht Hf]]. cbn in Ht. subst t'.
      apply filter_In in Hf. destruct Hf as [Hin He]. cbn in He.
      apply Z.eqb_eq in He. subst c.
      apply in_app_or in Hin. destruct Hin as [Hin | [Hin | []]].
      + now right.
      + left. now inversion Hin.
    - intros H. exists (chat_id, t). split; [reflexivity |].
      apply filter_In. split; [| apply Z.eqb_refl].
      apply in_or_app. destruct H as [-> | H]; [right; now left | now left]. }
  eexists. split; [reflexivity |]. split; [| exact Hts].
  apply Hts. now left.
Qed.

(** X9: a chat identifier outside the 64-bit range is never stored:
    AddTeamToChat then fails and leaves the store as it was, with the
    internal error when the team exists and no storage call faults, and
    ListChatTeams raises instead of returning a list. *)
Theorem chat_id_out_of_range (chat_id : Z) (team_name : string) (db : DB) :
  fits_int64 chat_id = false ->
  (forall F,
     success (fst (add_team_to_chat F chat_id team_name db)) = false /\
     snd (add_team_to_chat F chat_id team_name db) = db) /\
  (In (lower team_name) (teams db) ->
   fst (add_team_to_chat no_fault chat_id team_name db) =
     failure InternalServerError) /\
  get_chat_teams no_fault chat_id db = inr OtherException.
Proof.
  intros Hfit. split; [| split].
  - intros F. run_service. rewrite Hfit. cbn.
    split_ifs; split; reflexivity.
  - intros Hin. apply existsb_eqb_In in Hin.
    rewrite add_team_to_chat_eq. cbv zeta. rewrite Hin, Hfit. reflexivity.
  - unfold get_chat_teams, select_chat_teams. run_service.
    rewrite Hfit. reflexivity.
Qed.

(** X10: the four queries have no handler: when connecting or running the
    statement raises, the exception reaches the caller; otherwise they
    return what the fault-free run returns. *)
Theorem queries_propagate_exceptions (F : nat -> bool) (username team_name : string)
    (chat_id : Z) (db : DB) :
  (F 0 = true \/ F 1 = true ->
   get_teams F db = inr OtherException /\
   get_team_members F team_name db = inr OtherException /\
   get_user_teams F username db = inr OtherException /\
   get_chat_teams F chat_id db = inr OtherException) /\
  (F 0 = false /\ F 1 = false ->
   get_teams F db = get_teams no_fault db /\
   get_team_members F team_name db = get_team_members no_fault team_name db /\
   get_user_teams F username db = get_user_teams no_fault username db /\
   get_chat_teams F chat_id db = get_chat_teams no_fault chat_id db).
Proof.
  unfold get_teams, get_chat_teams, select_teams_ordered, select_chat_teams.
  run_service. split.
  - intros [H | H].
    + rewrite H. cbn. repeat split.
    + destruct (F 0); cbn; [repeat split |].
      rewrite H. cbn. repeat split.
  - intros [H0 H1]. rewrite H0. cbn. rewrite H1. cbn. repeat split.
    destruct (fits_int64 chat_id); reflexivity.
Qed.

(** X11: an OffboardUser that succeeds leaves the memberships of every
    other user as they were, and a second OffboardUser of the same user
    answers "not in any teams". *)
Theorem offboard_user_only_that_user (F : nat -> bool) (username : string)
    (db : DB) :
  success (fst (offboard_user F username db)) = true ->
  (forall other,
     replace_at other <> replace_at username ->
     get_user_teams no_fault other (snd (offboard_user F username db)) =
     get_user_teams no_fault other db) /\
  offboard_user no_fault username (snd (offboard_user F username db)) =
    (failure (UserNotInAnyTeams (replace_at username)),
     snd (offboard_user F username db)).
Proof.
  set (u := replace_at username).
  assert (Hother : forall v l,
             v <> u ->
             filter (fun r : string * string => String.eqb v (fst r))
                    (filter (fun r => negb (String.eqb u (fst r))) l) =
             filter (fun r => String.eqb v (fst r)) l).
  { intros v l Hv. induction l as [| [u' t] l IH]; cbn; [reflexivity |].
    destruct (String.eqb u u') eqn:Eu; cbn.
    - apply String.eqb_eq in Eu. subst u'.
      destruct (String.eqb v u) eqn:Ev; [| exact IH].
      apply String.eqb_eq in Ev. contradiction.
    - destruct (String.eqb v u'); [now rewrite IH | exact IH]. }
  assert (Hgone : forall l,
             existsb (fun r : string * string => String.eqb u (fst r))
                     (filter (fun r => negb (String.eqb u (fst r))) l) = false).
  { intros l. induction l as [| [u' t] l IH]; cbn; [reflexivity |].
    destruct (String.eqb u u') eqn:Eu; cbn; [exact IH |].
    rewrite Eu. exact IH. }
  rewrite (offboard_user_eq username (snd (offboard_user F username db))).
  cbv zeta. fold u.
  unfold get_user_teams, with_connection, select_user_teams.
  run_service. fold u.
  split_ifs; intros Hs; try discriminate;
    try match goal with
        | H : existsb _ (filter _ _) = true |- _ =>
            rewrite Hgone in H; discriminate
        end.
  split; [| reflexivity].
  intros other Hne. unfold teams_of_user. cbn.
  rewrite Hother; [reflexivity | exact Hne].
Qed.

Lemma filter_out_absent_row (r : string * string)
    (l : list (string * string)) :
  ~ In r l -> filter (fun x => negb (member_eqb r x)) (l ++ [r]) = l.
Proof.
  intros Hn. rewrite filter_app. cbn.
  assert (Hr : member_eqb r r = true) by now apply member_eqb_eq.
  rewrite Hr. cbn. rewrite app_nil_r.
  induction l as [| a l IH]; cbn; [reflexivity |].
  destruct (member_eqb r a) eqn:E.
  - apply member_eqb_eq in E. subst a. exfalso. apply Hn. now left.
  - cbn. f_equal. apply IH. intros H. apply Hn. now right.
Qed.

Lemma remove_after_add (F : nat -> bool) (username team_name : string)
    (db : DB) :
  success (fst (add_member_to_team F username team_name db)) = true ->
  snd (remove_member_from_team no_fault username team_name
         (snd (add_member_to_team F username team_name db))) = db.
Proof.
  rewrite (remove_member_from_team_eq username team_name
             (snd (add_member_to_team F username team_name db))).
  cbv zeta. run_service. split_ifs; intros Hs; try discriminate;
    match goal with
    | H : existsb (member_eqb ?r) (team_members db) = false |- _ =>
        assert (Hn : ~ In r (team_members db))
          by (rewrite <- existsb_member_In; congruence)
    end.
  - rewrite (filter_out_absent_row _ _ Hn). now destruct db.
  - exfalso.
    match goal with
    | H : existsb (member_eqb ?r) (_ ++ [?r]) = false |- _ =>
        assert (existsb (member_eqb r) (team_members db ++ [r]) = true)
          by (apply existsb_member_In, in_or_app; right; now left)
    end.
    congruence.
Qed.

(** X12: RemoveMember undoes an AddMember that succeeded: the store is
    again exactly what it was before the AddMember. *)
Theorem add_then_remove_restores_store (F : nat -> bool)
    (username team_name : string) (db : DB) :
  success (fst (add_member_to_team F username team_name db)) = true ->
  success (fst (remove_member_from_team no_fault username team_name
                  (snd (add_member_to_team F username team_name db)))) = true /\
  snd (remove_member_from_team no_fault username team_name
         (snd (add_member_to_team F username team_name db))) = db.
Proof.
  intros Hs. split; [| now apply remove_after_add].
  rewrite remove_member_from_team_eq. cbv zeta.
  revert Hs. run_service. split_ifs; intros Hs; try discriminate;
    try reflexivity.
  match goal with
  | H : existsb (member_eqb ?r) (_ ++ [?r]) = false |- _ =>
      assert (existsb (member_eqb r) (team_members db ++ [r]) = true)
        by (apply existsb_member_In, in_or_app; right; now left)
  end.
  congruence.
Qed.

(** ** The HTTP adapter *)

Lemma failure_store_unchanged (F : nat -> bool) (op : Op) (db : DB) :
  success (fst (run_op F op db)) = false ->
  message (fst (run_op F op db)) <> InternalServerError ->
  snd (run_op F op db) = db.
Proof.
  destruct op; run_service; split_ifs; intros Hs Hm;
    first [reflexivity | discriminate | congruence].
Qed.

(** X14: a route answers with the response of the service only when it is
    a success; every failure, the internal error included, is status 400
    with the message of the service as detail, and a 400 whose detail is not
    the internal error has left the store as it was. *)
Theorem rest_request_outcome (F : nat -> bool) (op : Op) (db : DB) :
  match fst (rest_request F op db) with
  | Returns body =>
      success body = true /\ (body, snd (rest_request F op db)) = run_op F op db
  | HTTPException status_code detail =>
      status_code = 400 /\
      success (fst (run_op F op db)) = false /\
      detail = message (fst (run_op F op db)) /\
      snd (rest_request F op db) = snd (run_op F op db) /\
      (detail <> InternalServerError -> snd (rest_request F op db) = db)
  end.
Proof.
  assert (H : rest_request F op db = http_result (run_op F op db))
    by (destruct op; reflexivity).
  rewrite H. unfold http_result.
  destruct (success (fst (run_op F op db))) eqn:Hs; cbn.
  - split; [exact Hs | now destruct (run_op F op db)].
  - repeat split. intros Hne.
    apply failure_store_unchanged; [exact Hs | exact Hne].
Qed.

(** ** The identity cache *)

Lemma dict_get_set_same (k : string) (v : Z) (d : list (string * Z)) :
  dict_get k (dict_set k v d) = Some v.
Proof.
  induction d as [| [k' v'] d IH]; cbn.
  - now rewrite String.eqb_refl.
  - destruct (String.eqb k k') eqn:E; cbn.
    + now rewrite String.eqb_refl.
    + now rewrite E.
Qed.

Lemma dict_get_set_other (k k' : string) (v : Z) (d : list (string * Z)) :
  k <> k' -> dict_get k' (dict_set k v d) = dict_get k' d.
Proof.
  intros Hne. induction d as [| [k0 v0] d IH]; cbn.
  - destruct (String.eqb k' k) eqn:E; [| reflexivity].
    apply String.eqb_eq in E. congruence.
  - destruct (String.eqb k k0) eqn:E; cbn.
    + apply String.eqb_eq in E. subst k0.
      destruct (String.eqb k' k) eqn:E'; [| reflexivity].
      apply String.eqb_eq in E'. congruence.
    + destruct (String.eqb k' k0); [reflexivity | exact IH].
Qed.

Lemma id_row_eqb_eq (r1 r2 : string * Z) : id_row_eqb r1 r2 = true <-> r1 = r2.
Proof.
  destruct r1 as [u1 i1], r2 as [u2 i2]. unfold id_row_eqb. cbn.
  rewrite andb_true_iff, String.eqb_eq, Z.eqb_eq. split.
  - intros [-> ->]. reflexivity.
  - intros H. injection H. auto.
Qed.

Lemma insert_or_replace_In (row r : string * Z) (tbl : list (string * Z)) :
  In r (insert_or_replace row tbl) <-> r = row \/ In r tbl.
Proof.
  unfold insert_or_replace. rewrite in_app_iff, filter_In. cbn. split.
  - intros [[H _] | [H | []]]; auto.
  - intros [-> | H]; [right; now left |].
    destruct (id_row_eqb row r) eqn:E.
    + apply id_row_eqb_eq in E. subst r. right. now left.
    + left. split; [exact H | reflexivity].
Qed.

Lemma fold_left_min_In (l : list Z) (i : Z) :
  In (fold_left Z.min l i) (i :: l).
Proof.
  revert i. induction l as [| a l IH]; intros i; cbn; [now left |].
  destruct (IH (Z.min i a)) as [H | H].
  - rewrite <- H. destruct (Z.min_dec i a) as [E | E]; rewrite E; auto.
  - right. now right.
Qed.

Lemma select_user_id_Some (u : string) (i : Z) (tbl : list (string * Z)) :
  select_user_id u tbl = Some i -> In (u, i) tbl.
Proof.
  unfold select_user_id.
  destruct (map snd (filter (fun r => String.eqb u (fst r)) tbl))
    as [| i0 l] eqn:E; [discriminate |].
  intros H. injection H as <-.
  pose proof (fold_left_min_In l i0) as Hin. rewrite <- E in Hin.
  apply in_map_iff in Hin. destruct Hin as [[u' i'] [Hi Hf]]. cbn in Hi.
  apply filter_In in Hf. destruct Hf as [Hf He]. cbn in He.
  apply String.eqb_eq in He. subst u'. now rewrite <- Hi.
Qed.

Lemma select_user_id_found (u : string) (i : Z) (tbl : list (string * Z)) :
  In (u, i) tbl -> exists i', select_user_id u tbl = Some i'.
Proof.
  intros Hin. unfold select_user_id.
  destruct (map snd (filter (fun r => String.eqb u (fst r)) tbl))
    as [| i0 l] eqn:E; [| eauto].
  assert (H : In i (map snd (filter (fun r => String.eqb u (fst r)) tbl))).
  { apply in_map_iff. exists (u, i). split; [reflexivity |].
    apply filter_In. split; [exact Hin | apply String.eqb_refl]. }
  rewrite E in H. destruct H.
Qed.

(** X15: once [cache_user_id] has run for a non-empty username, the lookup
    of that username answers the identifier from the dict, without a storage
    call, even when the write to the table raised. *)
Theorem cache_then_lookup (raises1 raises2 : bool) (username : string)
    (user_id : Z) (st : BotState) :
  username <> "" ->
  get_cached_user_id raises2 username
    (snd (cache_user_id raises1 username user_id st)) =
  (inl (Some user_id), snd (cache_user_id raises1 username user_id st)).
Proof.
  intros Hne. apply String.eqb_neq in Hne.
  unfold cache_user_id. rewrite Hne.
  destruct (raises1 || negb (fits_int64 user_id)); cbn;
    unfold get_cached_user_id; cbn; now rewrite dict_get_set_same.
Qed.

(** X16: what [cache_user_id] wrote to the table is found again when the
    dict is empty (a new process): the lookup answers an identifier stored
    for the username, the very one when the table held no other, and puts
    it in the dict. *)
Theorem cached_id_survives_restart (username : string) (user_id : Z)
    (st : BotState) :
  username <> "" ->
  fits_int64 user_id = true ->
  In (username, user_id) (user_ids (snd (cache_user_id false username user_id st)))
  /\
  exists found,
    get_cached_user_id false username
      (mkBot [] (user_ids (snd (cache_user_id false username user_id st)))) =
    (inl (Some found),
     mkBot [(username, found)]
           (user_ids (snd (cache_user_id false username user_id st)))) /\
    In (username, found)
       (user_ids (snd (cache_user_id false username user_id st))) /\
    ((forall i, In (username, i) (user_ids st) -> i = user_id) ->
     found = user_id).
Proof.
  intros Hne Hfit. apply String.eqb_neq in Hne.
  unfold cache_user_id. rewrite Hne, Hfit. cbn.
  assert (Hin : In (username, user_id)
                   (insert_or_replace (username, user_id) (user_ids st)))
    by (apply insert_or_replace_In; now left).
  split; [exact Hin |].
  destruct (select_user_id_found _ _ _ Hin) as [found Hf].
  exists found. unfold get_cached_user_id. cbn. rewrite Hf.
  split; [reflexivity |].
  apply select_user_id_Some in Hf. split; [exact Hf |].
  intros Hall. apply insert_or_replace_In in Hf.
  destruct Hf as [Hf | Hf]; [congruence | now apply Hall].
Qed.

(** X17: every entry of the dict has its row in the table: this holds of
    the empty cache, and is kept by a [cache_user_id] whose write goes
    through and by every [get_cached_user_id]. *)
Theorem cache_backed_invariant :
  cache_backed empty_bot /\
  (forall username user_id st,
     fits_int64 user_id = true ->
     cache_backed st ->
     cache_backed (snd (cache_user_id false username user_id st))) /\
  (forall raises username st,
     cache_backed st ->
     cache_backed (snd (get_cached_user_id raises username st))).
Proof.
  split; [| split].
  - intros u i H. discriminate H.
  - intros username user_id st Hfit Hb. unfold cache_user_id.
    destruct (String.eqb username ""); [exact Hb |].
    rewrite Hfit. cbn. intros u i Hget. cbn in Hget.
    apply insert_or_replace_In.
    destruct (String.eqb username u) eqn:E.
    + apply String.eqb_eq in E. subst u.
      rewrite dict_get_set_same in Hget. left. congruence.
    + apply String.eqb_neq in E.
      rewrite dict_get_set_other in Hget by exact E.
      right. now apply Hb.
  - intros raises username st Hb. unfold get_cached_user_id.
    destruct (dict_get username (user_id_cache st)); [exact Hb |].
    destruct raises; [exact Hb |].
    destruct (select_user_id username (user_ids st)) as [found |] eqn:Hf;
      [| exact Hb].
    cbn. intros u i Hget. cbn in Hget.
    destruct (String.eqb username u) eqn:E.
    + apply String.eqb_eq in E. subst u.
      rewrite dict_get_set_same in Hget. injection Hget as <-.
      now apply select_user_id_Some.
    + apply String.eqb_neq in E.
      rewrite dict_get_set_other in Hget by exact E. now apply Hb.
Qed.

(** X18: the table never loses a row: after a username is cached under one
    identifier and then under another, the dict answers the later one while
    the table holds both rows, and every older row. *)
Theorem user_ids_keeps_old_rows (username : string) (id1 id2 : Z)
    (st : BotState) :
  username <> "" ->
  fits_int64 id1 = true ->
  fits_int64 id2 = true ->
  let st2 := snd (cache_user_id false username id2
                    (snd (cache_user_id false username id1 st))) in
  dict_get username (user_id_cache st2) = Some id2 /\
  In (username, id1) (user_ids st2) /\
  In (username, id2) (user_ids st2) /\
  forall r, In r (user_ids st) -> In r (user_ids st2).
Proof.
  intros Hne H1 H2. apply String.eqb_neq in Hne.
  cbv zeta. unfold cache_user_id. rewrite Hne, H1. cbn.
  rewrite ?Hne, ?H2. cbn.
  split; [apply dict_get_set_same |].
  split; [| split].
  - apply insert_or_replace_In. right. apply insert_or_replace_In. now left.
  - apply insert_or_replace_In. now left.
  - intros r Hr. apply insert_or_replace_In. right.
    apply insert_or_replace_In. now right.
Qed.

(** X19: [get_user_id] reads the username through [lstrip('@')] and
    [lower] only, and never answers the identifier 0. *)
Theorem get_user_id_normalises (raises : bool) (name1 name2 : string)
    (st : BotState) :
  lower (lstrip_at name1) = lower (lstrip_at name2) ->
  get_user_id raises name1 st = get_user_id raises name2 st /\
  fst (get_user_id raises name1 st) <> inl (Some 0%Z).
Proof.
  intros Heq. unfold get_user_id. rewrite Heq. split; [reflexivity |].
  destruct (get_cached_user_id raises (lower (lstrip_at name2)) st)
    as [[[i |] | e] st']; cbn; try discriminate.
  destruct (Z.eqb i 0) eqn:E; cbn; [discriminate |].
  apply Z.eqb_neq in E. congruence.
Qed.

(** X20: after a user with a username has sent a message, [get_user_id]
    resolves every spelling of that username (leading "@", letter case) to
    the user's identifier, provided it is not 0. *)
Theorem message_then_get_user_id (raises1 raises2 : bool) (name asked : string)
    (uid : Z) (update : Update) (w : World) :
  effective_user update = Some (mkUser (Some name) uid) ->
  name <> "" ->
  lower name <> "" ->
  uid <> 0%Z ->
  lower (lstrip_at asked) = lower name ->
  get_user_id raises2 asked
    (bot_state (snd (handle_message raises1 update w))) =
  (inl (Some uid), bot_state (snd (handle_message raises1 update w))).
Proof.
  intros Hu Hn Hl Hz Ha.
  apply String.eqb_neq in Hn. apply String.eqb_neq in Hl.
  apply Z.eqb_neq in Hz.
  unfold handle_message, cache_sender, remember_user_id, cache_user_id.
  rewrite Hu. cbn. rewrite Hn, Hl.
  unfold get_user_id, get_cached_user_id. rewrite Ha.
  destruct (raises1 || negb (fits_int64 uid)); cbn;
    rewrite dict_get_set_same, Hz; reflexivity.
Qed.

(** ** The handlers *)

Lemma api_only_ret {A : Type} (a : A) : api_only (bot_ret a).
Proof. intros w. split; reflexivity. Qed.

Lemma api_only_raise {A : Type} (e : bot_exn) : api_only (@bot_raise A e).
Proof. intros w. split; reflexivity. Qed.

Lemma api_only_api (T : nat -> option string) (a : Action) : api_only (api T a).
Proof. intros w. unfold api. destruct (T (api_calls w)); split; reflexivity. Qed.

Lemma api_only_bind {A B : Type} (m : Bot A) (k : A -> Bot B) :
  api_only m -> (forall a, api_only (k a)) -> api_only (bot_bind m k).
Proof.
  intros Hm Hk w. unfold bot_bind. specialize (Hm w).
  destruct (m w) as [[a | e] w']; cbn in *; [| exact Hm].
  destruct (Hk a w') as [H1 H2]. destruct Hm as [H3 H4].
  split; congruence.
Qed.

Lemma api_only_try_log (m : Bot unit) : api_only m -> api_only (try_log m).
Proof.
  intros Hm w. unfold try_log. specialize (Hm w).
  destruct (m w) as [[a | e] w']; exact Hm.
Qed.

Lemma api_only_reply_text (T : nat -> option string) (update : Update)
    (r : Reply) : api_only (reply_text T update r).
Proof.
  unfold reply_text. destruct (effective_message update).
  - apply api_only_bind; [apply api_only_api | intros; apply api_only_ret].
  - apply api_only_raise.
Qed.

Lemma api_only_kick (T : nat -> option string) (chat_id user_id : Z) :
  api_only (kick T chat_id user_id).
Proof.
  unfold kick.
  repeat (apply api_only_bind; [apply api_only_api | intros]).
  apply api_only_ret.
Qed.

Lemma api_only_kick_from_chats (T : nat -> option string) (user_id : Z)
    (chats : list Z) : api_only (kick_from_chats T user_id chats).
Proof.
  induction chats as [| c chats IH]; cbn; [apply api_only_ret |].
  apply api_only_bind; [apply api_only_try_log, api_only_kick | intros done].
  apply api_only_bind; [exact IH | intros; apply api_only_ret].
Qed.

Lemma api_only_chat_link_of (T : nat -> option string) (chat_id : Z) :
  api_only (chat_link_of T chat_id).
Proof.
  unfold chat_link_of. apply api_only_bind; [apply api_only_api | intros n].
  destruct (negb (String.eqb n "")); [apply api_only_ret | apply api_only_api].
Qed.

Lemma api_only_invite_to_chats (T : nat -> option string) (update : Update)
    (username team_name : string) (user_id : Z) (chats : list Z) :
  api_only (invite_to_chats T update username team_name user_id chats).
Proof.
  induction chats as [| c chats IH]; cbn; [apply api_only_ret |].
  apply api_only_bind; [| intros; exact IH].
  apply api_only_try_log.
  apply api_only_bind; [apply api_only_chat_link_of | intros link].
  apply api_only_bind.
  - apply api_only_try_log.
    apply api_only_bind; [apply api_only_api | intros; apply api_only_ret].
  - intros told. destruct told; [apply api_only_ret |].
    destruct (effective_message update);
      [apply api_only_reply_text | apply api_only_ret].
Qed.

Lemma bot_bind_inl {A B : Type} (m : Bot A) (k : A -> Bot B) (w w' : World)
    (a : A) :
  m w = (inl a, w') -> bot_bind m k w = k a w'.
Proof. intros H. unfold bot_bind. now rewrite H. Qed.

Lemma lookup_user_id_known (raises : bool) (username : string) (uid : option Z)
    (st : BotState) (w : World) :
  get_user_id raises username (bot_state w) = (inl uid, st) ->
  lookup_user_id raises username w =
    (inl uid, mkWorld st (store w) (api_calls w) (sent w)).
Proof. intros H. unfold lookup_user_id. now rewrite H. Qed.

Lemma call_service_run (F : nat -> bool) (op : Op) (w : World) :
  call_service F op w =
    (inl (fst (run_op F op (store w))),
     mkWorld (bot_state w) (snd (run_op F op (store w))) (api_calls w) (sent w)).
Proof. unfold call_service. now destruct (run_op F op (store w)). Qed.

(** What the three handlers that resolve a user leave behind when the user
    is known: the cache as the lookup left it, and the tables as the
    operation of the service left them. *)
Lemma bot_add_to_team_data (T : nat -> option string) (F : nat -> bool)
    (raises : bool) (bot_username : string) (update : Update)
    (username team_name : string) (uid : Z) (st : BotState) (w : World) :
  effective_message update = true ->
  get_user_id raises username (bot_state w) = (inl (Some uid), st) ->
  bot_state (snd (bot_add_to_team T F raises bot_username update
                    [username; team_name] w)) = st /\
  store (snd (bot_add_to_team T F raises bot_username update
                [username; team_name] w)) =
    snd (add_member_to_team F (lower (lstrip_at username)) team_name (store w)).
Proof.
  intros Hm Hg. unfold bot_add_to_team. rewrite Hm. cbn.
  rewrite (bot_bind_inl _ _ _ _ _ (lookup_user_id_known _ _ _ _ _ Hg)).
  rewrite (bot_bind_inl _ _ _ _ _ (call_service_run _ _ _)). cbn.
  match goal with
  | |- context [bot_bind ?m ?k ?w0] =>
      assert (Ha : api_only (bot_bind m k));
      [| destruct (Ha w0) as [H1 H2]; split; [exact H1 | exact H2]]
  end.
  apply api_only_bind.
  - destruct (success _); [apply api_only_invite_to_chats | apply api_only_ret].
  - intros _. apply api_only_reply_text.
Qed.

Lemma bot_remove_from_team_data (T : nat -> option string) (F : nat -> bool)
    (raises : bool) (update : Update) (username team_name : string) (uid : Z)
    (st : BotState) (w : World) :
  effective_message update = true ->
  get_user_id raises username (bot_state w) = (inl (Some uid), st) ->
  bot_state (snd (bot_remove_from_team T F raises update
                    [username; team_name] w)) = st /\
  store (snd (bot_remove_from_team T F raises update
                [username; team_name] w)) =
    snd (remove_member_from_team F (lower (lstrip_at username)) team_name
           (store w)).
Proof.
  intros Hm Hg. unfold bot_remove_from_team. rewrite Hm. cbn.
  rewrite (bot_bind_inl _ _ _ _ _ (lookup_user_id_known _ _ _ _ _ Hg)).
  rewrite (bot_bind_inl _ _ _ _ _ (call_service_run _ _ _)). cbn.
  match goal with
  | |- context [bot_bind ?m ?k ?w0] =>
      assert (Ha : api_only (bot_bind m k));
      [| destruct (Ha w0) as [H1 H2]; split; [exact H1 | exact H2]]
  end.
  apply api_only_bind.
  - destruct (success _); [| apply api_only_ret].
    apply api_only_bind; [apply api_only_kick_from_chats |].
    intros; apply api_only_ret.
  - intros _. apply api_only_reply_text.
Qed.

Lemma bot_offboard_user_data (T : nat -> option string) (F : nat -> bool)
    (raises : bool) (update : Update) (username : string) (rest : list string)
    (uid : Z) (st : BotState) (w : World) :
  effective_message update = true ->
  get_user_id raises username (bot_state w) = (inl (Some uid), st) ->
  bot_state (snd (bot_offboard_user T F raises update (username :: rest) w))
    = st /\
  store (snd (bot_offboard_user T F raises update (username :: rest) w)) =
    snd (offboard_user F (lower (lstrip_at username)) (store w)).
Proof.
  intros Hm Hg. unfold bot_offboard_user. rewrite Hm. cbn.
  rewrite (bot_bind_inl _ _ _ _ _ (lookup_user_id_known _ _ _ _ _ Hg)).
  rewrite (bot_bind_inl _ _ _ _ _ (call_service_run _ _ _)). cbn.
  destruct (success _); [| split; reflexivity].
  match goal with
  | |- context [bot_bind ?m ?k ?w0] =>
      assert (Ha : api_only (bot_bind m k));
      [| destruct (Ha w0) as [H1 H2]; split; [exact H1 | exact H2]]
  end.
  apply api_only_bind; [apply api_only_kick_from_chats |].
  intros; apply api_only_reply_text.
Qed.

(** X21: on an update without a message the six handlers that take
    arguments raise [AttributeError] (they call [reply_text] on [None])
    before doing anything, while [list_teams] and [start] return without
    doing anything. *)
Theorem handlers_without_message (T : nat -> option string) (F : nat -> bool)
    (R : nat -> bool) (bot_username : string) (update : Update)
    (args : list string) (w : World) :
  effective_message update = false ->
  bot_create_team T F update args w = (inr AttributeError, w) /\
  bot_add_to_team T F (R 0) bot_username update args w =
    (inr AttributeError, w) /\
  bot_remove_from_team T F (R 0) update args w = (inr AttributeError, w) /\
  bot_add_team_to_chat T F R update args w = (inr AttributeError, w) /\
  bot_offboard_user T F (R 0) update args w = (inr AttributeError, w) /\
  bot_list_members T F update args w = (inr AttributeError, w) /\
  bot_list_teams T F update w = (inl tt, w) /\
  bot_start T (R 0) update w = (inl tt, w).
Proof.
  intros Hm.
  unfold bot_create_team, bot_add_to_team, bot_remove_from_team,
    bot_add_team_to_chat, bot_offboard_user, bot_list_members, bot_list_teams,
    bot_start, reply_text.
  rewrite Hm. cbn. rewrite !orb_true_r.
  repeat split.
  - destruct (effective_chat update); reflexivity.
  - destruct (effective_user update); reflexivity.
Qed.

(** X22: [/add_to_team] and [/remove_from_team] with a number of arguments
    other than two only send their usage text: the cache and the tables are
    left as they were and the service is not called. *)
Theorem wrong_argument_count (T : nat -> option string) (F : nat -> bool)
    (raises : bool) (bot_username : string) (update : Update)
    (args : list string) (w : World) (data : string) :
  effective_message update = true ->
  List.length args <> 2 ->
  T (api_calls w) = Some data ->
  bot_add_to_team T F raises bot_username update args w =
    (inl tt,
     mkWorld (bot_state w) (store w) (S (api_calls w))
       (sent w ++ [ReplyText (Text "Usage: /add_to_team @username team_name")]))
  /\
  bot_remove_from_team T F raises update args w =
    (inl tt,
     mkWorld (bot_state w) (store w) (S (api_calls w))
       (sent w ++
        [ReplyText (Text "Usage: /remove_from_team @username team_name")])).
Proof.
  intros Hm Hl Ht. apply Nat.eqb_neq in Hl.
  unfold bot_add_to_team, bot_remove_from_team, reply_text.
  rewrite Hm, Hl. cbn. rewrite !orb_true_r. cbn.
  unfold bot_bind, api, bot_ret. rewrite Ht. split; reflexivity.
Qed.

(** X23: when [get_user_id] does not know the user, the three handlers
    that resolve a user do not call the service: the tables are left as
    they were, and at most the reply that the user is unknown is sent. *)
Theorem unknown_user_is_not_served (T : nat -> option string) (F : nat -> bool)
    (raises : bool) (bot_username : string) (update : Update)
    (username team_name : string) (st : BotState) (w : World) :
  effective_message update = true ->
  get_user_id raises username (bot_state w) = (inl None, st) ->
  (store (snd (bot_add_to_team T F raises bot_username update
                 [username; team_name] w)) = store w /\
   (sent (snd (bot_add_to_team T F raises bot_username update
                 [username; team_name] w)) = sent w \/
    sent (snd (bot_add_to_team T F raises bot_username update
                 [username; team_name] w)) =
      sent w ++ [ReplyText (UnknownUserYet username bot_username)])) /\
  (store (snd (bot_remove_from_team T F raises update
                 [username; team_name] w)) = store w /\
   (sent (snd (bot_remove_from_team T F raises update
                 [username; team_name] w)) = sent w \/
    sent (snd (bot_remove_from_team T F raises update
                 [username; team_name] w)) =
      sent w ++ [ReplyText (UnknownUser username)])) /\
  (store (snd (bot_offboard_user T F raises update [username] w)) = store w /\
   (sent (snd (bot_offboard_user T F raises update [username] w)) = sent w \/
    sent (snd (bot_offboard_user T F raises update [username] w)) =
      sent w ++ [ReplyText (UnknownUser username)])).
Proof.
  intros Hm Hg.
  unfold bot_add_to_team, bot_remove_from_team, bot_offboard_user.
  rewrite Hm. cbn.
  rewrite !(bot_bind_inl _ _ _ _ _ (lookup_user_id_known _ _ _ _ _ Hg)).
  unfold reply_text. rewrite Hm.
  unfold bot_bind, api, bot_ret. cbn.
  destruct (T (api_calls w)); cbn; repeat split; auto.
Qed.

(** X24: when the user is known, what the three handlers leave in the
    tables is what the operation of the service leaves, whatever the Bot
    API calls do: a failing invite, ban or reply neither blocks nor undoes
    the write. *)
Theorem handlers_store_is_the_service_store (T : nat -> option string)
    (F : nat -> bool) (raises : bool) (bot_username : string) (update : Update)
    (username team_name : string) (uid : Z) (st : BotState) (w : World) :
  effective_message update = true ->
  get_user_id raises username (bot_state w) = (inl (Some uid), st) ->
  store (snd (bot_add_to_team T F raises bot_username update
                [username; team_name] w)) =
    snd (add_member_to_team F (lower (lstrip_at username)) team_name (store w))
  /\
  store (snd (bot_remove_from_team T F raises update
                [username; team_name] w)) =
    snd (remove_member_from_team F (lower (lstrip_at username)) team_name
           (store w)) /\
  store (snd (bot_offboard_user T F raises update [username] w)) =
    snd (offboard_user F (lower (lstrip_at username)) (store w)).
Proof.
  intros Hm Hg. split; [| split].
  - eapply bot_add_to_team_data; eassumption.
  - eapply bot_remove_from_team_data; eassumption.
  - eapply bot_offboard_user_data; eassumption.
Qed.

(** X25: the loop that removes a user from chats never raises; every chat
    of the list is either removed from (ban, then unban, both sent) or
    among the failed chats it returns, which are chats of the list; earlier
    calls stay in the record. *)
Theorem kick_from_chats_outcome (T : nat -> option string) (user_id : Z)
    (chats : list Z) (w : World) :
  exists failed,
    fst (kick_from_chats T user_id chats w) = inl failed /\
    incl failed chats /\
    incl (sent w) (sent (snd (kick_from_chats T user_id chats w))) /\
    forall c, In c chats ->
              In c failed \/
              kicked (sent (snd (kick_from_chats T user_id chats w))) c user_id.
Proof.
  revert w. induction chats as [| c chats IH]; intros w.
  - exists []. cbn. repeat split; auto using incl_refl; contradiction.
  - cbn [kick_from_chats].
    assert (Hstep : exists done w1,
               try_log (kick T c user_id) w = (inl done, w1) /\
               incl (sent w) (sent w1) /\
               (done = true -> kicked (sent w1) c user_id)).
    { unfold try_log, kick, bot_bind, api, bot_ret.
      destruct (T (api_calls w)) eqn:E1; cbn.
      - destruct (T (S (api_calls w))) eqn:E2; cbn.
        + exists true. eexists. split; [reflexivity |]. split.
          * cbn. intros a Ha. rewrite <- app_assoc. apply in_or_app. now left.
          * intros _. unfold kicked. cbn. split.
            -- apply in_or_app. left. apply in_or_app. right. now left.
            -- apply in_or_app. right. now left.
        + exists false. eexists. split; [reflexivity |]. split.
          * cbn. intros a Ha. apply in_or_app. now left.
          * discriminate.
      - exists false. eexists. split; [reflexivity |]. split.
        + cbn. apply incl_refl.
        + discriminate. }
    destruct Hstep as (done & w1 & Hrun & Hinc & Hk).
    destruct (IH w1) as (failed & Hf & Hfi & Hsi & Hall).
    destruct (kick_from_chats T user_id chats w1) as [[l | e] w2] eqn:Hrest;
      cbn in Hf; [| discriminate].
    injection Hf as ->. cbn in Hsi, Hall.
    rewrite (bot_bind_inl _ _ _ _ _ Hrun).
    rewrite (bot_bind_inl _ _ _ _ _ Hrest). cbn.
    exists (if done then failed else c :: failed).
    split; [reflexivity |]. split; [| split].
    + destruct done.
      * intros a Ha. right. now apply Hfi.
      * intros a [<- | Ha]; [now left | right; now apply Hfi].
    + intros a Ha. apply Hsi, Hinc, Ha.
    + intros c' [<- | Hc'].
      * destruct done; [| left; now left].
        right. destruct (Hk eq_refl) as [Hb Hu].
        split; apply Hsi; assumption.
      * destruct (Hall c' Hc') as [H | H]; [| now right].
        left. destruct done; [exact H | now right].
Qed.

(** X26: [/offboard] answers only a success: when the service fails for a
    known user (the user is in no team, or the internal error), the handler
    returns without any Bot API call. *)
Theorem offboard_failure_is_not_answered (T : nat -> option string)
    (F : nat -> bool) (raises : bool) (update : Update) (username : string)
    (rest : list string) (uid : Z) (st : BotState) (w : World) :
  effective_message update = true ->
  get_user_id raises username (bot_state w) = (inl (Some uid), st) ->
  success (fst (offboard_user F (lower (lstrip_at username)) (store w)))
    = false ->
  bot_offboard_user T F raises update (username :: rest) w =
    (inl tt,
     mkWorld st (snd (offboard_user F (lower (lstrip_at username)) (store w)))
       (api_calls w) (sent w)).
Proof.
  intros Hm Hg Hs. unfold bot_offboard_user. rewrite Hm. cbn.
  rewrite (bot_bind_inl _ _ _ _ _ (lookup_user_id_known _ _ _ _ _ Hg)).
  rewrite (bot_bind_inl _ _ _ _ _ (call_service_run _ _ _)). cbn.
  rewrite Hs. reflexivity.
Qed.

(** X27: [/add] answers only a success as well: when the service fails
    (unknown team, team already in the chat, internal error), the handler
    returns without any Bot API call. *)
Theorem add_team_to_chat_failure_is_not_answered (T : nat -> option string)
    (F : nat -> bool) (R : nat -> bool) (update : Update) (chat_id : Z)
    (name : string) (rest : list string) (w : World) :
  effective_chat update = Some chat_id ->
  effective_message update = true ->
  success (fst (add_team_to_chat F chat_id (lower name) (store w))) = false ->
  bot_add_team_to_chat T F R update (name :: rest) w =
    (inl tt,
     mkWorld (bot_state w)
       (snd (add_team_to_chat F chat_id (lower name) (store w)))
       (api_calls w) (sent w)).
Proof.
  intros Hc Hm Hs. unfold bot_add_team_to_chat. rewrite Hc, Hm. cbn.
  rewrite (bot_bind_inl _ _ _ _ _ (call_service_run _ _ _)). cbn.
  rewrite Hs. reflexivity.
Qed.





Lemma cache_extends_refl (st : BotState) : cache_extends st st.
Proof. split; [reflexivity | intros k; now left]. Qed.

Lemma cache_extends_trans (st1 st2 st3 : BotState) :
  cache_extends st1 st2 -> cache_extends st2 st3 -> cache_extends st1 st3.
Proof.
  intros [Ht12 Hd12] [Ht23 Hd23]. split; [congruence |].
  intros k. destruct (Hd12 k) as [H12 | [Hn Hs]];
    destruct (Hd23 k) as [H23 | [Hn' Hs']].
  - left. congruence.
  - right. split; [congruence |]. rewrite Hs', Ht12. reflexivity.
  - right. split; [exact Hn | congruence].
  - right. split; [exact Hn |]. rewrite Hs', Ht12. reflexivity.
Qed.

Lemma get_cached_user_id_extends (username : string) (st : BotState) :
  cache_extends st (snd (get_cached_user_id false username st)).
Proof.
  unfold get_cached_user_id.
  destruct (dict_get username (user_id_cache st)) as [i |] eqn:Hd;
    [apply cache_extends_refl |].
  destruct (select_user_id username (user_ids st)) as [i |] eqn:Hs;
    [| apply cache_extends_refl].
  split; [reflexivity |]. intros k. cbn.
  destruct (String.eqb username k) eqn:E.
  - apply String.eqb_eq in E. subst k. right.
    split; [exact Hd |]. rewrite dict_get_set_same. now symmetry.
  - apply String.eqb_neq in E. left. now apply dict_get_set_other.
Qed.

Lemma get_cached_user_id_stable (username : string) (st st' : BotState) :
  cache_extends st st' ->
  fst (get_cached_user_id false username st') =
  fst (get_cached_user_id false username st).
Proof.
  intros [Ht Hd]. unfold get_cached_user_id. rewrite Ht.
  destruct (Hd username) as [H | [Hn Hs]].
  - rewrite H. destruct (dict_get username (user_id_cache st)); [reflexivity |].
    destruct (select_user_id username (user_ids st)); reflexivity.
  - rewrite Hn, Hs.
    destruct (select_user_id username (user_ids st)); reflexivity.
Qed.

Lemma get_user_id_extends (username : string) (st : BotState) :
  cache_extends st (snd (get_user_id false username st)).
Proof.
  pose proof (get_cached_user_id_extends (lower (lstrip_at username)) st) as H.
  unfold get_user_id.
  destruct (get_cached_user_id false (lower (lstrip_at username)) st)
    as [[[i |] | e] st']; cbn in *; try exact H.
  destruct (Z.eqb i 0); exact H.
Qed.

Lemma get_user_id_stable (username : string) (st st' : BotState) :
  cache_extends st st' ->
  fst (get_user_id false username st') = fst (get_user_id false username st).
Proof.
  intros He.
  pose proof (get_cached_user_id_stable (lower (lstrip_at username)) st st' He)
    as H.
  unfold get_user_id.
  destruct (get_cached_user_id false (lower (lstrip_at username)) st')
    as [[[i |] | e] s1];
    destruct (get_cached_user_id false (lower (lstrip_at username)) st)
      as [[[i' |] | e'] s2]; cbn in *; try congruence.
  injection H as ->. destruct (Z.eqb i' 0); reflexivity.
Qed.

Lemma get_user_id_returns (username : string) (st : BotState) :
  exists r, fst (get_user_id false username st) = inl r.
Proof.
  unfold get_user_id, get_cached_user_id.
  destruct (dict_get _ _) as [i |].
  - destruct (Z.eqb i 0); cbn; eauto.
  - destruct (select_user_id _ _) as [i |]; [| cbn; eauto].
    destruct (Z.eqb i 0); cbn; eauto.
Qed.

(** The loop of [/add] over the members, started in any cache that lookups
    made from [st0]. *)
Lemma notify_members_from (T : nat -> option string) (R : nat -> bool)
    (team_name chat_link : string) (st0 : BotState) (members : list string) :
  (forall j, R j = false) ->
  forall (k : nat) (w : World),
    cache_extends st0 (bot_state w) ->
    exists failed new_calls,
      fst (notify_members T R k team_name chat_link members w) = inl failed /\
      incl failed members /\
      sent (snd (notify_members T R k team_name chat_link members w)) =
        sent w ++ new_calls /\
      forall u, In u members ->
        match fst (get_user_id false u st0) with
        | inl (Some uid) =>
            In u failed \/
            In (SendMessage uid (TeamAddedToChatNotice team_name chat_link))
               new_calls
        | _ => In u failed
        end.
Proof.
  intros HR. induction members as [| u members IH]; intros k w Hext.
  - exists [], []. cbn. rewrite app_nil_r.
    repeat split; auto using incl_refl; contradiction.
  - cbn [notify_members].
    destruct (get_user_id_returns u (bot_state w)) as [r Hr].
    assert (Hlook : lookup_user_id (R k) u w =
                    (inl r, mkWorld (snd (get_user_id false u (bot_state w)))
                                    (store w) (api_calls w) (sent w))).
    { unfold lookup_user_id. rewrite HR.
      destruct (get_user_id false u (bot_state w)) as [[r' | e] st'];
        cbn in *; [congruence | discriminate]. }
    rewrite (bot_bind_inl _ _ _ _ _ Hlook).
    set (w0 := mkWorld (snd (get_user_id false u (bot_state w)))
                       (store w) (api_calls w) (sent w)).
    assert (Hext0 : cache_extends st0 (bot_state w0)).
    { eapply cache_extends_trans; [exact Hext | apply get_user_id_extends]. }
    assert (Hr0 : fst (get_user_id false u st0) = inl r).
    { rewrite <- (get_user_id_stable u st0 (bot_state w) Hext). exact Hr. }
    assert (Hstep : exists failed_here w1 new1,
               match r with
               | Some user_id =>
                   told <~ try_log
                             (api T (SendMessage user_id
                                       (TeamAddedToChatNotice team_name
                                          chat_link)) ;;; bot_ret tt) ;;
                   bot_ret (negb told)
               | None => bot_ret true
               end w0 = (inl failed_here, w1) /\
               bot_state w1 = bot_state w0 /\
               sent w1 = sent w ++ new1 /\
               (failed_here = false ->
                exists uid,
                  r = Some uid /\
                  In (SendMessage uid (TeamAddedToChatNotice team_name chat_link))
                     new1)).
    { destruct r as [uid |].
      - unfold bot_bind, try_log, api, bot_ret. cbn.
        destruct (T (api_calls w)); cbn.
        + exists false. eexists. eexists. split; [reflexivity |].
          split; [reflexivity |]. split; [reflexivity |].
          intros _. exists uid. split; [reflexivity | now left].
        + exists true. eexists. exists []. split; [reflexivity |].
          split; [reflexivity |]. split; [cbn; now rewrite app_nil_r |].
          discriminate.
      - exists true, w0, []. split; [reflexivity |]. split; [reflexivity |].
        split; [cbn; now rewrite app_nil_r | discriminate]. }
    destruct Hstep as (failed_here & w1 & new1 & Hrun & Hb1 & Hs1 & Hsent).
    rewrite (bot_bind_inl _ _ _ _ _ Hrun).
    assert (Hext1 : cache_extends st0 (bot_state w1)) by (now rewrite Hb1).
    destruct (IH (S k) w1 Hext1) as (failed & new2 & Hf & Hfi & Hs2 & Hall).
    destruct (notify_members T R (S k) team_name chat_link members w1)
      as [[l | e] w2] eqn:Hrest; cbn in Hf; [| discriminate].
    injection Hf as ->. cbn in Hs2.
    rewrite (bot_bind_inl _ _ _ _ _ Hrest). cbn.
    exists (if failed_here then u :: failed else failed), (new1 ++ new2).
    split; [reflexivity |]. split; [| split].
    + destruct failed_here.
      * intros a [<- | Ha]; [now left | right; now apply Hfi].
      * intros a Ha. right. now apply Hfi.
    + rewrite Hs2, Hs1. now rewrite app_assoc.
    + intros u' [<- | Hu'].
      * rewrite Hr0. destruct failed_here.
        -- destruct r; [left |]; now left.
        -- destruct (Hsent eq_refl) as (uid & -> & Hin).
           right. apply in_or_app. now left.
      * specialize (Hall u' Hu').
        destruct (fst (get_user_id false u' st0)) as [[uid |] | e].
        -- destruct Hall as [H | H].
           ++ left. destruct failed_here; [now right | exact H].
           ++ right. apply in_or_app. now right.
        -- destruct failed_here; [now right | exact Hall].
        -- destruct failed_here; [now right | exact Hall].
Qed.

(** X29: when no lookup raises, the loop of [/add] over the members never
    raises and returns failed members that are members of the list; a
    member whom [get_user_id] does not resolve is among them, and a member
    whom it resolves to an identifier is either among them or was sent, by
    a call of this loop, the notice of the new chat under that identifier. *)
Theorem notify_members_outcome (T : nat -> option string) (R : nat -> bool)
    (k : nat) (team_name chat_link : string) (members : list string)
    (w : World) :
  (forall j, R j = false) ->
  exists failed new_calls,
    fst (notify_members T R k team_name chat_link members w) = inl failed /\
    incl failed members /\
    sent (snd (notify_members T R k team_name chat_link members w)) =
      sent w ++ new_calls /\
    forall u, In u members ->
      match fst (get_user_id false u (bot_state w)) with
      | inl (Some uid) =>
          In u failed \/
          In (SendMessage uid (TeamAddedToChatNotice team_name chat_link))
             new_calls
      | _ => In u failed
      end.
Proof.
  intros HR.
  apply (notify_members_from T R team_name chat_link (bot_state w) members HR
           k w (cache_extends_refl _)).
Qed.

(** X30: [/list_members] answers a team without membership rows, unknown
    or empty alike, with "has no members", and any other team with its
    usernames in ascending order, under the lower-cased name it was asked
    with. *)
Theorem bot_list_members_reply (T : nat -> option string) (update : Update)
    (name : string) (rest : list string) (w : World) (data : string) :
  effective_message update = true ->
  T (api_calls w) = Some data ->
  exists members,
    get_team_members no_fault (lower name) (store w) = inl members /\
    Sorted str_le members /\
    (forall u, In u members <->
               In (u, lower (lower name)) (team_members (store w))) /\
    bot_list_members T no_fault update (name :: rest) w =
      (inl tt,
       mkWorld (bot_state w) (store w) (S (api_calls w))
         (sent w ++
          [ReplyText (match members with
                      | [] => NoMembers (lower name)
                      | _ :: _ => MemberList (lower name) members
                      end)])).
Proof.
  intros Hm Ht.
  exists (order_by (members_of_team (lower (lower name)) (store w))).
  split; [reflexivity |]. split; [apply order_by_sorted |]. split.
  - intros u. rewrite order_by_In. apply members_of_team_In.
  - unfold bot_list_members. rewrite Hm. cbn [no_args orb negb hd].
    assert (Hq : call_query (get_team_members no_fault (lower name)) w =
                 (inl (order_by (members_of_team (lower (lower name)) (store w))),
                  w)) by reflexivity.
    rewrite (bot_bind_inl _ _ _ _ _ Hq).
    unfold reply_text. rewrite Hm.
    destruct (order_by (members_of_team (lower (lower name)) (store w)));
      cbn; unfold bot_bind, api, bot_ret; rewrite Ht; reflexivity.
Qed.

End Service.

(** ** Concrete runs, with the ASCII lower-casing *)

Lemma primary_keys_empty : primary_keys empty_db.
Proof. repeat split; constructor. Qed.

(** A fault of [sqlite3.connect] itself comes back as the internal error. *)
Lemma connect_fault_is_internal_error (lower : string -> string)
    (F : nat -> bool) (op : Op) (db : DB) :
  F 0 = true -> run_op lower F op db = (failure InternalServerError, db).
Proof.
  intros H0. destruct op; cbn;
    unfold create_team, add_member_to_team, remove_member_from_team,
      add_team_to_chat, offboard_user, try_except, with_connection, bind,
      storage_call; cbn; rewrite H0; reflexivity.
Qed.

(** The end-to-end run of the specification: CreateTeam("eng"),
    AddTeamToChat(100, "eng"), AddMember("bob", "eng"), ListTeamMembers,
    RemoveMember("bob", "eng"), ListTeamMembers. *)
Example end_to_end :
  create_team lower_ascii no_fault "eng" empty_db =
    (ok (TeamCreated "eng"), db_eng) /\
  add_team_to_chat lower_ascii no_fault 100 "eng" db_eng =
    (mkResponse true (AddedTeamToChat "eng") None None (Some []),
     mkDB ["eng"] [] [(100%Z, "eng")]) /\
  add_member_to_team lower_ascii no_fault "bob" "eng"
    (mkDB ["eng"] [] [(100%Z, "eng")]) =
    (mkResponse true (AddedUser "bob" "eng") (Some [100%Z]) None None,
     db_bob) /\
  get_team_members lower_ascii no_fault "eng" db_bob = inl ["bob"] /\
  remove_member_from_team lower_ascii no_fault "bob" "eng" db_bob =
    (mkResponse true (RemovedUser "bob" "eng") None (Some [100%Z]) None,
     mkDB ["eng"] [] [(100%Z, "eng")]) /\
  get_team_members lower_ascii no_fault "eng"
    (mkDB ["eng"] [] [(100%Z, "eng")]) = inl [].
Proof. repeat split. Qed.

(** C1: through the service, AddMember("@Alice", "Eng") stores the row
    ("Alice", "eng"); RemoveMember("alice", "eng") then answers that the
    user is not in the team and the row stays: the username had its "@"
    removed but was not case-folded. *)
Theorem remove_member_is_case_sensitive :
  create_team lower_ascii no_fault "Eng" empty_db =
    (ok (TeamCreated "eng"), db_eng) /\
  add_member_to_team lower_ascii no_fault "@Alice" "Eng" db_eng =
    (mkResponse true (AddedUser "Alice" "eng") (Some []) None None,
     db_alice) /\
  remove_member_from_team lower_ascii no_fault "alice" "eng" db_alice =
    (failure (UserNotInTeam "alice" "eng"), db_alice).
Proof. repeat split. Qed.

(** What the two normalisations do share: RemoveMember with the same name
    up to "@" and the same team up to [lower] deletes the row that AddMember
    stored. *)
Lemma add_then_remove_same_normal_form :
  remove_member_from_team lower_ascii no_fault "Alice" "eng" db_alice =
    (mkResponse true (RemovedUser "Alice" "eng") None (Some []) None, db_eng).
Proof. reflexivity. Qed.

(** C2, as stated, fails: RemoveMember commits its delete and then reads
    the chats of the team; when that read faults, the response is the
    internal error and the membership row is gone from the store. *)
Lemma failure_after_commit_is_persisted :
  run_op lower_ascii (fault_at 3) (RemoveMember "bob" "eng") db_bob =
    (failure InternalServerError, mkDB ["eng"] [] [(100%Z, "eng")]) /\
  mkDB ["eng"] [] [(100%Z, "eng")] <> db_bob.
Proof. split; [reflexivity | discriminate]. Qed.

Lemma failure_leaves_store_unchanged_witness :
  success (fst (run_op lower_ascii (fault_at 2) (RemoveMember "bob" "eng")
                       db_bob)) = false /\
  (forall k, post_commit_call (RemoveMember "bob" "eng") = Some k ->
             fault_at 2 k = false) /\
  snd (run_op lower_ascii (fault_at 2) (RemoveMember "bob" "eng") db_bob)
    = db_bob.
Proof.
  assert (Hc : forall k, post_commit_call (RemoveMember "bob" "eng") = Some k ->
                         fault_at 2 k = false).
  { intros k H. injection H as <-. reflexivity. }
  split; [reflexivity |]. split; [exact Hc |].
  apply (failure_leaves_store_unchanged lower_ascii).
  - reflexivity.
  - right. exact Hc.
Defined.

Lemma ref_integrity_db_bob : ref_integrity db_bob.
Proof. split; cbn; intros a t [H | []]; injection H as _ <-; now left. Qed.

Lemma referential_integrity_invariant_witness :
  ref_integrity db_bob /\
  ref_integrity (snd (run_op lower_ascii no_fault (AddMember "@Alice" "Eng")
                             db_bob)) /\
  incl (teams db_bob)
       (teams (snd (run_op lower_ascii no_fault (AddMember "@Alice" "Eng")
                           db_bob))).
Proof.
  split; [exact ref_integrity_db_bob |].
  apply (proj2 (referential_integrity_invariant lower_ascii)).
  exact ref_integrity_db_bob.
Defined.

Lemma ghost_not_in_db_eng : ~ In (lower_ascii "Ghost") (teams db_eng).
Proof. cbn. intros [H | []]. discriminate H. Qed.

Lemma add_member_unknown_team_witness :
  ~ In (lower_ascii "Ghost") (teams db_eng) /\
  add_member_to_team lower_ascii no_fault "@bob" "Ghost" db_eng =
    (failure (TeamDoesntExist "ghost"), db_eng).
Proof.
  split; [exact ghost_not_in_db_eng |].
  apply (add_member_unknown_team lower_ascii "@bob" "Ghost" db_eng
           ghost_not_in_db_eng).
Defined.

Lemma remove_member_ignores_team_existence_witness :
  ref_integrity db_bob /\
  ~ In (lower_ascii "Ghost") (teams db_bob) /\
  In (lower_ascii "Ghost") (teams db_bob_ghost) /\
  ~ In (replace_at "@bob", lower_ascii "Ghost") (team_members db_bob_ghost) /\
  remove_member_from_team lower_ascii no_fault "@bob" "Ghost" db_bob =
    (failure (UserNotInTeam "bob" "ghost"), db_bob) /\
  fst (remove_member_from_team lower_ascii no_fault "@bob" "Ghost"
         db_bob_ghost) =
    fst (remove_member_from_team lower_ascii no_fault "@bob" "Ghost" db_bob).
Proof.
  assert (H2 : ~ In (lower_ascii "Ghost") (teams db_bob)).
  { cbn. intros [H | []]. discriminate H. }
  assert (H3 : In (lower_ascii "Ghost") (teams db_bob_ghost)).
  { cbn. right. left. reflexivity. }
  assert (H4 : ~ In (replace_at "@bob", lower_ascii "Ghost")
                    (team_members db_bob_ghost)).
  { cbn. intros [H | []]. discriminate H. }
  split; [exact ref_integrity_db_bob |].
  repeat (split; [assumption |]).
  apply (remove_member_ignores_team_existence lower_ascii "@bob" "Ghost"
           db_bob db_bob_ghost ref_integrity_db_bob H2 H3 H4).
Defined.

Lemma create_team_twice_witness :
  primary_keys db_bob /\
  lower_ascii "Ops" = lower_ascii "OPS" /\
  fst (create_team lower_ascii no_fault "OPS"
         (snd (create_team lower_ascii no_fault "Ops" db_bob))) =
    failure (TeamAlreadyExists "ops") /\
  count_occ string_dec
    (teams (snd (create_team lower_ascii no_fault "OPS"
                   (snd (create_team lower_ascii no_fault "Ops" db_bob)))))
    "ops" = 1.
Proof.
  assert (H : primary_keys db_bob).
  { repeat split; cbn; repeat constructor; intros []. }
  split; [exact H |]. split; [reflexivity |].
  apply (create_team_twice lower_ascii "Ops" "OPS" db_bob H eq_refl).
Defined.

Lemma add_member_twice_and_readd_witness :
  In (lower_ascii "ENG") (teams db_bob) /\
  fst (add_member_to_team lower_ascii no_fault "@Carol" "ENG"
         (snd (add_member_to_team lower_ascii no_fault "@Carol" "ENG" db_bob)))
    = failure (UserAlreadyInTeam "Carol" "eng") /\
  success
    (fst (add_member_to_team lower_ascii no_fault "@Carol" "ENG"
            (snd (remove_member_from_team lower_ascii no_fault "@Carol" "ENG"
                    (snd (add_member_to_team lower_ascii no_fault "@Carol"
                            "ENG" db_bob)))))) = true.
Proof.
  assert (H : In (lower_ascii "ENG") (teams db_bob)).
  { cbn. left. reflexivity. }
  destruct (add_member_twice_and_readd lower_ascii "@Carol" "ENG" db_bob H)
    as (H2 & _ & H4 & _).
  split; [exact H |]. split; [exact H2 | exact H4].
Defined.

Lemma offboard_user_spec_witness :
  (exists t, In (replace_at "@carol", t) (team_members db_carol)) /\
  success (fst (offboard_user no_fault "@carol" db_carol)) = true /\
  chats_to_remove (fst (offboard_user no_fault "@carol" db_carol)) =
    Some [1%Z; 2%Z; 3%Z] /\
  team_members (snd (offboard_user no_fault "@carol" db_carol)) =
    [("dave", "a")] /\
  get_user_teams no_fault "@carol"
    (snd (offboard_user no_fault "@carol" db_carol)) = inl [] /\
  (forall t, ~ In (replace_at "erin", t) (team_members db_carol)) /\
  offboard_user no_fault "erin" db_carol =
    (failure (UserNotInAnyTeams "erin"), db_carol).
Proof.
  assert (H1 : exists t, In (replace_at "@carol", t) (team_members db_carol)).
  { exists "a". cbn. left. reflexivity. }
  assert (H2 : forall t, ~ In (replace_at "erin", t) (team_members db_carol)).
  { intros t. cbn. intros [H | [H | [H | []]]]; discriminate H. }
  destruct (offboard_user_spec "@carol" db_carol) as [Hin _].
  destruct (Hin H1) as (Hs & _ & _ & _ & _ & _ & Hq & _).
  destruct (offboard_user_spec "erin" db_carol) as [_ Hout].
  split; [exact H1 |]. split; [exact Hs |].
  split; [reflexivity |]. split; [reflexivity |].
  split; [exact Hq |]. split; [exact H2 |].
  exact (Hout H2).
Defined.

(** C7, as stated, fails for a chat identifier beyond 64 bits: on an
    existing team both calls end in the internal error, the second is not
    "already in this chat", and no link is stored. *)
Lemma add_team_to_chat_twice_out_of_range :
  In (lower_ascii "eng") (teams db_bob) /\
  add_team_to_chat lower_ascii no_fault (2 ^ 63) "eng" db_bob =
    (failure InternalServerError, db_bob) /\
  add_team_to_chat lower_ascii no_fault (2 ^ 63) "eng"
    (snd (add_team_to_chat lower_ascii no_fault (2 ^ 63) "eng" db_bob)) =
    (failure InternalServerError, db_bob) /\
  failure InternalServerError <> failure (TeamAlreadyInChat "eng").
Proof.
  split; [now left |]. split; [reflexivity |]. split; [reflexivity |].
  discriminate.
Qed.

Lemma add_team_to_chat_spec_witness :
  ~ In (lower_ascii "Ghost") (teams db_two_members) /\
  add_team_to_chat lower_ascii no_fault 100 "Ghost" db_two_members =
    (failure (TeamDoesntExist "ghost"), db_two_members) /\
  In (lower_ascii "Eng") (teams db_two_members) /\
  fits_int64 100 = true /\
  ~ In (100%Z, lower_ascii "Eng") (chat_teams db_two_members) /\
  add_team_to_chat lower_ascii no_fault 100 "Eng" db_two_members =
    (mkResponse true (AddedTeamToChat "eng") None None (Some ["bob"; "alice"]),
     mkDB ["eng"] [("bob", "eng"); ("alice", "eng")] [(100%Z, "eng")]) /\
  fst (add_team_to_chat lower_ascii no_fault 100 "Eng"
         (snd (add_team_to_chat lower_ascii no_fault 100 "Eng"
                 db_two_members))) =
    failure (TeamAlreadyInChat "eng") /\
  In (100%Z, lower_ascii "ENG") (chat_teams db_bob) /\
  add_team_to_chat lower_ascii no_fault 100 "ENG" db_bob =
    (failure (TeamAlreadyInChat "eng"), db_bob).
Proof.
  assert (H1 : ~ In (lower_ascii "Ghost") (teams db_two_members)).
  { cbn. intros [H | []]. discriminate H. }
  assert (H2 : In (lower_ascii "Eng") (teams db_two_members)) by (now left).
  assert (H3 : ~ In (100%Z, lower_ascii "Eng") (chat_teams db_two_members))
    by (intros []).
  assert (H4 : In (lower_ascii "ENG") (teams db_bob)) by (now left).
  assert (H5 : In (100%Z, lower_ascii "ENG") (chat_teams db_bob)) by (now left).
  destruct (add_team_to_chat_spec lower_ascii 100 "Ghost" db_two_members)
    as (Hnf & _ & _).
  destruct (add_team_to_chat_spec lower_ascii 100 "Eng" db_two_members)
    as (_ & Hok & _).
  destruct (Hok H2 eq_refl) as (Hfresh & _ & _ & Hagain).
  destruct (add_team_to_chat_spec lower_ascii 100 "ENG" db_bob)
    as (_ & Hpre & _).
  destruct (Hpre H4 eq_refl) as (_ & Hlinked & _).
  split; [exact H1 |]. split; [exact (Hnf H1) |].
  split; [exact H2 |]. split; [reflexivity |]. split; [exact H3 |].
  split; [exact (Hfresh H3) |].
  split; [rewrite Hagain; reflexivity |].
  split; [exact H5 | exact (Hlinked H5)].
Defined.

Lemma get_team_members_spec_witness :
  ref_integrity db_two_members /\
  ~ In (lower_ascii "Ghost") (teams db_two_members) /\
  get_team_members lower_ascii no_fault "Ghost" db_two_members = inl [] /\
  get_team_members lower_ascii no_fault "ENG" db_two_members =
    inl ["alice"; "bob"].
Proof.
  assert (H1 : ref_integrity db_two_members).
  { split; cbn; [intros a t [H | [H | []]]; injection H as _ <-; now left
                | intros a t []]. }
  assert (H2 : ~ In (lower_ascii "Ghost") (teams db_two_members)).
  { cbn. intros [H | []]. discriminate H. }
  destruct (get_team_members_spec lower_ascii "Ghost" db_two_members)
    as (members & Hget & _ & _ & _ & _ & Hnone & _).
  split; [exact H1 |]. split; [exact H2 |].
  split; [| reflexivity].
  rewrite Hget. rewrite (Hnone H1 H2). reflexivity.
Defined.

(** ** Concrete runs of the further properties *)

Lemma primary_keys_db_bob : primary_keys db_bob.
Proof. repeat split; cbn; repeat constructor; intros []. Qed.

Lemma primary_keys_invariant_witness :
  primary_keys db_bob /\
  primary_keys (snd (run_op lower_ascii (fault_at 3) (RemoveMember "bob" "eng")
                            db_bob)).
Proof.
  split; [exact primary_keys_db_bob |].
  apply (proj2 (primary_keys_invariant lower_ascii)).
  exact primary_keys_db_bob.
Defined.

Lemma canonical_db_bob : canonical lower_ascii db_bob.
Proof.
  split; [| split]; cbn.
  - intros t [<- | []]. now exists "eng".
  - intros u t [H | []]. injection H as <- <-.
    split; [reflexivity | now exists "eng"].
  - intros c t [H | []]. injection H as <- <-.
    split; [reflexivity | now exists "eng"].
Qed.

Lemma canonical_invariant_witness :
  canonical lower_ascii db_bob /\
  canonical lower_ascii
    (snd (run_op lower_ascii no_fault (AddMember "@Al@ice" "Eng") db_bob)).
Proof.
  split; [exact canonical_db_bob |].
  apply (proj2 (canonical_invariant lower_ascii)).
  exact canonical_db_bob.
Defined.

Lemma same_request_same_run_witness :
  same_request lower_ascii (AddMember "@Alice" "Eng") (AddMember "Al@ice" "ENG")
  /\
  run_op lower_ascii no_fault (AddMember "@Alice" "Eng") db_bob =
  run_op lower_ascii no_fault (AddMember "Al@ice" "ENG") db_bob.
Proof.
  assert (H : same_request lower_ascii (AddMember "@Alice" "Eng")
                (AddMember "Al@ice" "ENG")) by (split; reflexivity).
  split; [exact H |].
  apply (same_request_same_run lower_ascii no_fault _ _ db_bob H).
Defined.

Lemma create_team_then_get_teams_witness :
  success (fst (create_team lower_ascii no_fault "Ops" db_bob)) = true /\
  ~ In (lower_ascii "Ops") (teams db_bob) /\
  get_teams no_fault (snd (create_team lower_ascii no_fault "Ops" db_bob)) =
    inl ["eng"; "ops"].
Proof.
  assert (H : success (fst (create_team lower_ascii no_fault "Ops" db_bob))
              = true) by reflexivity.
  destruct (create_team_then_get_teams lower_ascii no_fault "Ops" db_bob H)
    as [Hnew _].
  split; [exact H |]. split; [exact Hnew | reflexivity].
Defined.

Lemma add_member_then_lookups_witness :
  success (fst (add_member_to_team lower_ascii no_fault "@Alice" "Eng" db_bob))
    = true /\
  exists chats,
    chats_to_add (fst (add_member_to_team lower_ascii no_fault "@Alice" "Eng"
                         db_bob)) = Some chats /\
    forall c, In c chats <-> In (c, lower_ascii "Eng") (chat_teams db_bob).
Proof.
  assert (H : success (fst (add_member_to_team lower_ascii no_fault "@Alice"
                              "Eng" db_bob)) = true) by reflexivity.
  split; [exact H |].
  exact (proj1 (add_member_then_lookups lower_ascii no_fault "@Alice" "Eng"
                  db_bob H)).
Defined.

Lemma remove_member_then_lookups_witness :
  success (fst (remove_member_from_team lower_ascii no_fault "@bob" "ENG"
                  db_bob)) = true /\
  fst (remove_member_from_team lower_ascii no_fault "@bob" "ENG"
         (snd (remove_member_from_team lower_ascii no_fault "@bob" "ENG"
                 db_bob))) =
    failure (UserNotInTeam (replace_at "@bob") (lower_ascii "ENG")).
Proof.
  assert (H : success (fst (remove_member_from_team lower_ascii no_fault "@bob"
                              "ENG" db_bob)) = true) by reflexivity.
  split; [exact H |].
  destruct (remove_member_then_lookups lower_ascii no_fault "@bob" "ENG"
              db_bob H) as (_ & _ & _ & Hagain).
  exact Hagain.
Defined.

Lemma add_team_to_chat_then_get_chat_teams_witness :
  success (fst (add_team_to_chat lower_ascii no_fault 7 "Eng" db_bob)) = true /\
  exists ts,
    get_chat_teams no_fault 7
      (snd (add_team_to_chat lower_ascii no_fault 7 "Eng" db_bob)) = inl ts /\
    In (lower_ascii "Eng") ts /\
    forall t, In t ts <-> t = lower_ascii "Eng" \/ In (7%Z, t) (chat_teams db_bob).
Proof.
  assert (H : success (fst (add_team_to_chat lower_ascii no_fault 7 "Eng"
                              db_bob)) = true) by reflexivity.
  split; [exact H |].
  exact (add_team_to_chat_then_get_chat_teams lower_ascii no_fault 7 "Eng"
           db_bob H).
Defined.

Lemma chat_id_out_of_range_witness :
  fits_int64 (2 ^ 63) = false /\
  In (lower_ascii "Eng") (teams db_bob) /\
  fst (add_team_to_chat lower_ascii no_fault (2 ^ 63) "Eng" db_bob) =
    failure InternalServerError /\
  get_chat_teams no_fault (2 ^ 63) db_bob = inr OtherException.
Proof.
  assert (H : fits_int64 (2 ^ 63) = false) by reflexivity.
  assert (Hin : In (lower_ascii "Eng") (teams db_bob)) by (now left).
  destruct (chat_id_out_of_range lower_ascii (2 ^ 63) "Eng" db_bob H)
    as (_ & Hint & Hq).
  split; [exact H |]. split; [exact Hin |].
  split; [exact (Hint Hin) | exact Hq].
Defined.

Lemma queries_propagate_exceptions_witness :
  (fault_at 1 0 = true \/ fault_at 1 1 = true) /\
  get_teams (fault_at 1) db_bob = inr OtherException /\
  (fault_at 2 0 = false /\ fault_at 2 1 = false) /\
  get_teams (fault_at 2) db_bob = get_teams no_fault db_bob.
Proof.
  assert (H1 : fault_at 1 0 = true \/ fault_at 1 1 = true)
    by (right; reflexivity).
  assert (H2 : fault_at 2 0 = false /\ fault_at 2 1 = false)
    by (split; reflexivity).
  split; [exact H1 |].
  split; [exact (proj1 (proj1 (queries_propagate_exceptions lower_ascii
                                 (fault_at 1) "bob" "eng" 100 db_bob) H1)) |].
  split; [exact H2 |].
  exact (proj1 (proj2 (queries_propagate_exceptions lower_ascii (fault_at 2)
                         "bob" "eng" 100 db_bob) H2)).
Defined.

Lemma offboard_user_only_that_user_witness :
  success (fst (offboard_user no_fault "@carol" db_carol)) = true /\
  replace_at "dave" <> replace_at "@carol" /\
  get_user_teams no_fault "dave" (snd (offboard_user no_fault "@carol" db_carol))
    = get_user_teams no_fault "dave" db_carol.
Proof.
  assert (H : success (fst (offboard_user no_fault "@carol" db_carol)) = true)
    by reflexivity.
  assert (Hne : replace_at "dave" <> replace_at "@carol") by discriminate.
  split; [exact H |]. split; [exact Hne |].
  exact (proj1 (offboard_user_only_that_user no_fault "@carol" db_carol H)
           "dave" Hne).
Defined.

Lemma add_then_remove_restores_store_witness :
  success (fst (add_member_to_team lower_ascii no_fault "@Alice" "Eng" db_bob))
    = true /\
  snd (remove_member_from_team lower_ascii no_fault "@Alice" "Eng"
         (snd (add_member_to_team lower_ascii no_fault "@Alice" "Eng" db_bob)))
    = db_bob.
Proof.
  assert (H : success (fst (add_member_to_team lower_ascii no_fault "@Alice"
                              "Eng" db_bob)) = true) by reflexivity.
  split; [exact H |].
  exact (proj2 (add_then_remove_restores_store lower_ascii no_fault "@Alice"
                  "Eng" db_bob H)).
Defined.

Lemma rest_request_outcome_witness :
  fst (rest_request lower_ascii no_fault (AddMember "bob" "eng") db_bob) =
    HTTPException 400 (UserAlreadyInTeam "bob" "eng") /\
  UserAlreadyInTeam "bob" "eng" <> InternalServerError /\
  snd (rest_request lower_ascii no_fault (AddMember "bob" "eng") db_bob)
    = db_bob.
Proof.
  assert (Hne : UserAlreadyInTeam "bob" "eng" <> InternalServerError)
    by discriminate.
  split; [reflexivity |]. split; [exact Hne |].
  pose proof (rest_request_outcome lower_ascii no_fault (AddMember "bob" "eng")
                db_bob) as H.
  change (fst (rest_request lower_ascii no_fault (AddMember "bob" "eng") db_bob))
    with (HTTPException 400 (UserAlreadyInTeam "bob" "eng")) in H.
  destruct H as (_ & _ & _ & _ & H). exact (H Hne).
Defined.

Lemma cache_then_lookup_witness :
  "alice" <> "" /\
  get_cached_user_id true "alice"
    (snd (cache_user_id true "alice" 42 empty_bot)) =
  (inl (Some 42%Z), mkBot [("alice", 42%Z)] []).
Proof.
  assert (H : "alice" <> "") by discriminate.
  split; [exact H |].
  apply (cache_then_lookup true true "alice" 42 empty_bot H).
Defined.

Lemma cached_id_survives_restart_witness :
  "alice" <> "" /\
  fits_int64 42 = true /\
  In ("alice", 42%Z)
     (user_ids (snd (cache_user_id false "alice" 42 empty_bot))).
Proof.
  assert (H : "alice" <> "") by discriminate.
  split; [exact H |]. split; [reflexivity |].
  exact (proj1 (cached_id_survives_restart "alice" 42 empty_bot H eq_refl)).
Defined.

Lemma cache_backed_invariant_witness :
  fits_int64 7 = true /\
  cache_backed empty_bot /\
  cache_backed (snd (cache_user_id false "bob" 7 empty_bot)).
Proof.
  split; [reflexivity |].
  split; [exact (proj1 cache_backed_invariant) |].
  apply (proj1 (proj2 cache_backed_invariant) "bob" 7%Z empty_bot eq_refl).
  exact (proj1 cache_backed_invariant).
Defined.

Lemma user_ids_keeps_old_rows_witness :
  "alice" <> "" /\
  fits_int64 42 = true /\
  fits_int64 43 = true /\
  In ("alice", 42%Z)
     (user_ids (snd (cache_user_id false "alice" 43
                       (snd (cache_user_id false "alice" 42 empty_bot))))) /\
  dict_get "alice"
    (user_id_cache (snd (cache_user_id false "alice" 43
                           (snd (cache_user_id false "alice" 42 empty_bot)))))
    = Some 43%Z.
Proof.
  assert (H : "alice" <> "") by discriminate.
  destruct (user_ids_keeps_old_rows "alice" 42 43 empty_bot H eq_refl eq_refl)
    as (Hd & Hold & _).
  split; [exact H |]. split; [reflexivity |]. split; [reflexivity |].
  split; [exact Hold | exact Hd].
Defined.

Lemma get_user_id_normalises_witness :
  lower_ascii (lstrip_at "@@ALICE") = lower_ascii (lstrip_at "alice") /\
  get_user_id lower_ascii false "@@ALICE" bot_alice =
  get_user_id lower_ascii false "alice" bot_alice.
Proof.
  assert (H : lower_ascii (lstrip_at "@@ALICE") = lower_ascii (lstrip_at "alice"))
    by reflexivity.
  split; [exact H |].
  exact (proj1 (get_user_id_normalises lower_ascii false "@@ALICE" "alice"
                  bot_alice H)).
Defined.

Lemma message_then_get_user_id_witness :
  effective_user update_alice = Some (mkUser (Some "Alice") 42%Z) /\
  "Alice" <> "" /\
  lower_ascii "Alice" <> "" /\
  42%Z <> 0%Z /\
  lower_ascii (lstrip_at "@ALICE") = lower_ascii "Alice" /\
  fst (get_user_id lower_ascii false "@ALICE"
         (bot_state (snd (handle_message lower_ascii false update_alice
                            (mkWorld empty_bot db_bob 0 []))))) =
    inl (Some 42%Z).
Proof.
  assert (H1 : "Alice" <> "") by discriminate.
  assert (H2 : lower_ascii "Alice" <> "") by discriminate.
  assert (H3 : 42%Z <> 0%Z) by discriminate.
  split; [reflexivity |]. split; [exact H1 |]. split; [exact H2 |].
  split; [exact H3 |]. split; [reflexivity |].
  rewrite (message_then_get_user_id lower_ascii false false "Alice" "@ALICE"
             42%Z update_alice (mkWorld empty_bot db_bob 0 [])
             eq_refl H1 H2 H3 eq_refl).
  reflexivity.
Defined.

Lemma handlers_without_message_witness :
  effective_message update_no_message = false /\
  bot_remove_from_team lower_ascii no_api_fault no_fault false
    update_no_message ["@alice"; "eng"] world_alice =
    (inr AttributeError, world_alice).
Proof.
  split; [reflexivity |].
  destruct (handlers_without_message lower_ascii no_api_fault no_fault
              (fun _ => false) "thebot" update_no_message ["@alice"; "eng"]
              world_alice eq_refl) as (_ & _ & H & _).
  exact H.
Defined.

Lemma wrong_argument_count_witness :
  effective_message update_alice = true /\
  List.length ["@alice"] <> 2 /\
  no_api_fault (api_calls world_alice) = Some "" /\
  bot_remove_from_team lower_ascii no_api_fault no_fault false update_alice
    ["@alice"] world_alice =
    (inl tt,
     mkWorld bot_alice db_bob 1
       [ReplyText (Text "Usage: /remove_from_team @username team_name")]).
Proof.
  assert (H : List.length ["@alice"] <> 2) by discriminate.
  split; [reflexivity |]. split; [exact H |]. split; [reflexivity |].
  exact (proj2 (wrong_argument_count lower_ascii no_api_fault no_fault false
                  "thebot" update_alice ["@alice"] world_alice ""
                  eq_refl H eq_refl)).
Defined.

Lemma unknown_user_is_not_served_witness :
  effective_message update_alice = true /\
  get_user_id lower_ascii false "@dave" (bot_state world_alice) =
    (inl None, bot_alice) /\
  store (snd (bot_remove_from_team lower_ascii no_api_fault no_fault false
                update_alice ["@dave"; "eng"] world_alice)) = db_bob.
Proof.
  split; [reflexivity |]. split; [reflexivity |].
  destruct (unknown_user_is_not_served lower_ascii no_api_fault no_fault false
              "thebot" update_alice "@dave" "eng" bot_alice world_alice
              eq_refl eq_refl) as (_ & [H _] & _).
  exact H.
Defined.

Lemma handlers_store_is_the_service_store_witness :
  effective_message update_alice = true /\
  get_user_id lower_ascii false "@ALICE" (bot_state world_alice) =
    (inl (Some 42%Z), bot_alice) /\
  store (snd (bot_add_to_team lower_ascii api_fails_first no_fault false
                "thebot" update_alice ["@ALICE"; "Eng"] world_alice)) =
    mkDB ["eng"] [("bob", "eng"); ("alice", "eng")] [(100%Z, "eng")].
Proof.
  split; [reflexivity |]. split; [reflexivity |].
  destruct (handlers_store_is_the_service_store lower_ascii api_fails_first
              no_fault false "thebot" update_alice "@ALICE" "Eng" 42%Z
              bot_alice world_alice eq_refl eq_refl) as [H _].
  rewrite H. reflexivity.
Defined.

Lemma kick_from_chats_outcome_witness :
  exists failed,
    fst (kick_from_chats api_fails_first 42 [100%Z; 200%Z] world_alice)
      = inl failed /\
    In 200%Z [100%Z; 200%Z] /\
    (In 200%Z failed \/
     kicked (sent (snd (kick_from_chats api_fails_first 42 [100%Z; 200%Z]
                          world_alice))) 200 42).
Proof.
  destruct (kick_from_chats_outcome api_fails_first 42 [100%Z; 200%Z]
              world_alice) as (failed & Hf & _ & _ & Hall).
  assert (Hin : In 200%Z [100%Z; 200%Z]) by (right; now left).
  exists failed. split; [exact Hf |]. split; [exact Hin | exact (Hall _ Hin)].
Defined.

Lemma offboard_failure_is_not_answered_witness :
  effective_message update_alice = true /\
  get_user_id lower_ascii false "@Alice" (bot_state world_alice) =
    (inl (Some 42%Z), bot_alice) /\
  success (fst (offboard_user no_fault (lower_ascii (lstrip_at "@Alice"))
                  (store world_alice))) = false /\
  bot_offboard_user lower_ascii no_api_fault no_fault false update_alice
    ["@Alice"] world_alice = (inl tt, world_alice).
Proof.
  split; [reflexivity |]. split; [reflexivity |]. split; [reflexivity |].
  rewrite (offboard_failure_is_not_answered lower_ascii no_api_fault no_fault
             false update_alice "@Alice" [] 42%Z bot_alice world_alice
             eq_refl eq_refl eq_refl).
  reflexivity.
Defined.

Lemma add_team_to_chat_failure_is_not_answered_witness :
  effective_chat update_alice = Some 100%Z /\
  effective_message update_alice = true /\
  success (fst (add_team_to_chat lower_ascii no_fault 100 (lower_ascii "ENG")
                  (store world_alice))) = false /\
  bot_add_team_to_chat lower_ascii no_api_fault no_fault (fun _ => false)
    update_alice ["ENG"] world_alice = (inl tt, world_alice).
Proof.
  split; [reflexivity |]. split; [reflexivity |]. split; [reflexivity |].
  rewrite (add_team_to_chat_failure_is_not_answered lower_ascii no_api_fault
             no_fault (fun _ => false) update_alice 100%Z "ENG" [] world_alice
             eq_refl eq_refl eq_refl).
  reflexivity.
Defined.


Lemma notify_members_outcome_witness :
  (forall j : nat, (fun _ : nat => false) j = false) /\
  In "alice" ["bob"; "alice"] /\
  fst (get_user_id lower_ascii false "alice" (bot_state world_alice)) =
    inl (Some 42%Z) /\
  exists failed new_calls,
    fst (notify_members lower_ascii no_api_fault (fun _ => false) 0 "eng"
           "link" ["bob"; "alice"] world_alice) = inl failed /\
    incl failed ["bob"; "alice"] /\
    (In "alice" failed \/
     In (SendMessage 42 (TeamAddedToChatNotice "eng" "link")) new_calls).
Proof.
  assert (H : forall j : nat, (fun _ : nat => false) j = false)
    by (intros j; reflexivity).
  assert (Hin : In "alice" ["bob"; "alice"]) by (right; now left).
  split; [exact H |]. split; [exact Hin |]. split; [reflexivity |].
  destruct (notify_members_outcome lower_ascii no_api_fault (fun _ => false) 0
              "eng" "link" ["bob"; "alice"] world_alice H)
    as (failed & new_calls & Hf & Hi & _ & Hall).
  exists failed, new_calls. split; [exact Hf |]. split; [exact Hi |].
  exact (Hall "alice" Hin).
Defined.

Lemma bot_list_members_reply_witness :
  effective_message update_alice = true /\
  no_api_fault (api_calls world_alice) = Some "" /\
  bot_list_members lower_ascii no_api_fault no_fault update_alice ["Ghost"]
    world_alice =
    (inl tt, mkWorld bot_alice db_bob 1 [ReplyText (NoMembers "ghost")]).
Proof.
  split; [reflexivity |]. split; [reflexivity |].
  destruct (bot_list_members_reply lower_ascii no_api_fault update_alice
              "Ghost" [] world_alice "" eq_refl eq_refl)
    as (members & Hget & _ & _ & Hrun).
  rewrite Hrun.
  assert (Hm : members = []).
  { assert (H : get_team_members lower_ascii no_fault (lower_ascii "Ghost")
                  (store world_alice) = inl []) by reflexivity.
    rewrite H in Hget. now injection Hget. }
  rewrite Hm. reflexivity.
Defined.
